(** * cybersec-rss-bot: a shallow embedding of [rss_bot.py]

    The program polls RSS feeds, routes every new entry to a Discord
    channel and posts it through a webhook.  This file embeds the class
    [MultiChannelCyberSecBot] of [src/rss_bot.py] and proves the
    properties of its specification.

    Conventions of the embedding.
    - A Python [str] is the list of its Unicode code points ([list N]).
    - A Python [int] is a [Z].
    - [self.webhooks] is a [gmap], [self.posted_items] a [gset].
    - What the program reads from outside (the feed parser, the HTTP
      transport, the clocks, the process environment) is a field of the
      record [env]; what it does to the outside (the HTTP posts) is
      recorded, in order, in the state.
    - [print] calls write to the standard output only and are left out,
      but for the clock they read. *)

From Stdlib Require Import ZArith NArith List String Ascii Bool Lia.
From stdpp Require Import gmap.
Import ListNotations.

Local Open Scope Z_scope.

(** ** The case tables of Python

    [str.lower()] and [str.title()] read the case mappings and the
    properties Cased and Case_Ignorable of the Unicode character
    database, which is part of the interpreter and not of the program.
    The tables below are the ones of CPython 3.11 (Unicode 14.0.0), code
    points as integers. *)
Module CaseTables.

(** A run [(lo, hi, step, delta)] of a simple case mapping: the code
    points [lo], [lo + step], ..., up to [hi] are mapped to themselves
    plus [delta].  A code point of no run is mapped to itself. *)
Fixpoint shift (runs : list (Z * Z * Z * Z)) (z : Z) : Z :=
  match runs with
  | [] => z
  | (lo, hi, step, delta) :: rest =>
      if (lo <=? z) && (z <=? hi) && ((z - lo) mod step =? 0) then z + delta
      else shift rest z
  end.

(** Membership in a list of ranges [(lo, hi)], both ends included. *)
Fixpoint in_ranges (ranges : list (Z * Z)) (z : Z) : bool :=
  match ranges with
  | [] => false
  | (lo, hi) :: rest => (lo <=? z) && (z <=? hi) || in_ranges rest z
  end.

(** The entry of [z] in a list of exceptions. *)
Fixpoint special (table : list (Z * list Z)) (z : Z) : option (list Z) :=
  match table with
  | [] => None
  | (c, image) :: rest => if c =? z then Some image else special rest z
  end.

(** The simple lowercase mapping. *)
Definition lower_runs : list (Z * Z * Z * Z) :=
  [(0x41, 0x5A, 1, 32); (0xC0, 0xD6, 1, 32); (0xD8, 0xDE, 1, 32);
   (0x100, 0x12E, 2, 1); (0x132, 0x136, 2, 1); (0x139, 0x147, 2, 1);
   (0x14A, 0x176, 2, 1); (0x178, 0x178, 1, -121); (0x179, 0x17D, 2, 1);
   (0x181, 0x181, 1, 210); (0x182, 0x184, 2, 1); (0x186, 0x186, 1, 206);
   (0x187, 0x187, 1, 1); (0x189, 0x18A, 1, 205); (0x18B, 0x18B, 1, 1);
   (0x18E, 0x18E, 1, 79); (0x18F, 0x18F, 1, 202); (0x190, 0x190, 1, 203);
   (0x191, 0x191, 1, 1); (0x193, 0x193, 1, 205); (0x194, 0x194, 1, 207);
   (0x196, 0x196, 1, 211); (0x197, 0x197, 1, 209); (0x198, 0x198, 1, 1);
   (0x19C, 0x19C, 1, 211); (0x19D, 0x19D, 1, 213); (0x19F, 0x19F, 1, 214);
   (0x1A0, 0x1A4, 2, 1); (0x1A6, 0x1A6, 1, 218); (0x1A7, 0x1A7, 1, 1);
   (0x1A9, 0x1A9, 1, 218); (0x1AC, 0x1AC, 1, 1); (0x1AE, 0x1AE, 1, 218);
   (0x1AF, 0x1AF, 1, 1); (0x1B1, 0x1B2, 1, 217); (0x1B3, 0x1B5, 2, 1);
   (0x1B7, 0x1B7, 1, 219); (0x1B8, 0x1B8, 1, 1); (0x1BC, 0x1BC, 1, 1);
   (0x1C4, 0x1C4, 1, 2); (0x1C5, 0x1C5, 1, 1); (0x1C7, 0x1C7, 1, 2);
   (0x1C8, 0x1C8, 1, 1); (0x1CA, 0x1CA, 1, 2); (0x1CB, 0x1DB, 2, 1);
   (0x1DE, 0x1EE, 2, 1); (0x1F1, 0x1F1, 1, 2); (0x1F2, 0x1F4, 2, 1);
   (0x1F6, 0x1F6, 1, -97); (0x1F7, 0x1F7, 1, -56); (0x1F8, 0x21E, 2, 1);
   (0x220, 0x220, 1, -130); (0x222, 0x232, 2, 1); (0x23A, 0x23A, 1, 10795);
   (0x23B, 0x23B, 1, 1); (0x23D, 0x23D, 1, -163); (0x23E, 0x23E, 1, 10792);
   (0x241, 0x241, 1, 1); (0x243, 0x243, 1, -195); (0x244, 0x244, 1, 69);
   (0x245, 0x245, 1, 71); (0x246, 0x24E, 2, 1); (0x370, 0x372, 2, 1);
   (0x376, 0x376, 1, 1); (0x37F, 0x37F, 1, 116); (0x386, 0x386, 1, 38);
   (0x388, 0x38A, 1, 37); (0x38C, 0x38C, 1, 64); (0x38E, 0x38F, 1, 63);
   (0x391, 0x3A1, 1, 32); (0x3A3, 0x3AB, 1, 32); (0x3CF, 0x3CF, 1, 8);
   (0x3D8, 0x3EE, 2, 1); (0x3F4, 0x3F4, 1, -60); (0x3F7, 0x3F7, 1, 1);
   (0x3F9, 0x3F9, 1, -7); (0x3FA, 0x3FA, 1, 1); (0x3FD, 0x3FF, 1, -130);
   (0x400, 0x40F, 1, 80); (0x410, 0x42F, 1, 32); (0x460, 0x480, 2, 1);
   (0x48A, 0x4BE, 2, 1); (0x4C0, 0x4C0, 1, 15); (0x4C1, 0x4CD, 2, 1);
   (0x4D0, 0x52E, 2, 1); (0x531, 0x556, 1, 48); (0x10A0, 0x10C5, 1, 7264);
   (0x10C7, 0x10C7, 1, 7264); (0x10CD, 0x10CD, 1, 7264);
   (0x13A0, 0x13EF, 1, 38864); (0x13F0, 0x13F5, 1, 8);
   (0x1C90, 0x1CBA, 1, -3008); (0x1CBD, 0x1CBF, 1, -3008);
   (0x1E00, 0x1E94, 2, 1); (0x1E9E, 0x1E9E, 1, -7615);
   (0x1EA0, 0x1EFE, 2, 1); (0x1F08, 0x1F0F, 1, -8); (0x1F18, 0x1F1D, 1, -8);
   (0x1F28, 0x1F2F, 1, -8); (0x1F38, 0x1F3F, 1, -8); (0x1F48, 0x1F4D, 1, -8);
   (0x1F59, 0x1F5F, 2, -8); (0x1F68, 0x1F6F, 1, -8); (0x1F88, 0x1F8F, 1, -8);
   (0x1F98, 0x1F9F, 1, -8); (0x1FA8, 0x1FAF, 1, -8); (0x1FB8, 0x1FB9, 1, -8);
   (0x1FBA, 0x1FBB, 1, -74); (0x1FBC, 0x1FBC, 1, -9);
   (0x1FC8, 0x1FCB, 1, -86); (0x1FCC, 0x1FCC, 1, -9);
   (0x1FD8, 0x1FD9, 1, -8); (0x1FDA, 0x1FDB, 1, -100);
   (0x1FE8, 0x1FE9, 1, -8); (0x1FEA, 0x1FEB, 1, -112);
   (0x1FEC, 0x1FEC, 1, -7); (0x1FF8, 0x1FF9, 1, -128);
   (0x1FFA, 0x1FFB, 1, -126); (0x1FFC, 0x1FFC, 1, -9);
   (0x2126, 0x2126, 1, -7517); (0x212A, 0x212A, 1, -8383);
   (0x212B, 0x212B, 1, -8262); (0x2132, 0x2132, 1, 28);
   (0x2160, 0x216F, 1, 16); (0x2183, 0x2183, 1, 1); (0x24B6, 0x24CF, 1, 26);
   (0x2C00, 0x2C2F, 1, 48); (0x2C60, 0x2C60, 1, 1);
   (0x2C62, 0x2C62, 1, -10743); (0x2C63, 0x2C63, 1, -3814);
   (0x2C64, 0x2C64, 1, -10727); (0x2C67, 0x2C6B, 2, 1);
   (0x2C6D, 0x2C6D, 1, -10780); (0x2C6E, 0x2C6E, 1, -10749);
   (0x2C6F, 0x2C6F, 1, -10783); (0x2C70, 0x2C70, 1, -10782);
   (0x2C72, 0x2C72, 1, 1); (0x2C75, 0x2C75, 1, 1);
   (0x2C7E, 0x2C7F, 1, -10815); (0x2C80, 0x2CE2, 2, 1);
   (0x2CEB, 0x2CED, 2, 1); (0x2CF2, 0x2CF2, 1, 1); (0xA640, 0xA66C, 2, 1);
   (0xA680, 0xA69A, 2, 1); (0xA722, 0xA72E, 2, 1); (0xA732, 0xA76E, 2, 1);
   (0xA779, 0xA77B, 2, 1); (0xA77D, 0xA77D, 1, -35332);
   (0xA77E, 0xA786, 2, 1); (0xA78B, 0xA78B, 1, 1);
   (0xA78D, 0xA78D, 1, -42280); (0xA790, 0xA792, 2, 1);
   (0xA796, 0xA7A8, 2, 1); (0xA7AA, 0xA7AA, 1, -42308);
   (0xA7AB, 0xA7AB, 1, -42319); (0xA7AC, 0xA7AC, 1, -42315);
   (0xA7AD, 0xA7AD, 1, -42305); (0xA7AE, 0xA7AE, 1, -42308);
   (0xA7B0, 0xA7B0, 1, -42258); (0xA7B1, 0xA7B1, 1, -42282);
   (0xA7B2, 0xA7B2, 1, -42261); (0xA7B3, 0xA7B3, 1, 928);
   (0xA7B4, 0xA7C2, 2, 1); (0xA7C4, 0xA7C4, 1, -48);
   (0xA7C5, 0xA7C5, 1, -42307); (0xA7C6, 0xA7C6, 1, -35384);
   (0xA7C7, 0xA7C9, 2, 1); (0xA7D0, 0xA7D0, 1, 1); (0xA7D6, 0xA7D8, 2, 1);
   (0xA7F5, 0xA7F5, 1, 1); (0xFF21, 0xFF3A, 1, 32);
   (0x10400, 0x10427, 1, 40); (0x104B0, 0x104D3, 1, 40);
   (0x10570, 0x1057A, 1, 39); (0x1057C, 0x1058A, 1, 39);
   (0x1058C, 0x10592, 1, 39); (0x10594, 0x10595, 1, 39);
   (0x10C80, 0x10CB2, 1, 64); (0x118A0, 0x118BF, 1, 32);
   (0x16E40, 0x16E5F, 1, 32); (0x1E900, 0x1E921, 1, 34)].

(** The titlecase mapping of the code points whose titlecase form is one
    code point. *)
Definition title_runs : list (Z * Z * Z * Z) :=
  [(0x61, 0x7A, 1, -32); (0xB5, 0xB5, 1, 743); (0xE0, 0xF6, 1, -32);
   (0xF8, 0xFE, 1, -32); (0xFF, 0xFF, 1, 121); (0x101, 0x12F, 2, -1);
   (0x131, 0x131, 1, -232); (0x133, 0x137, 2, -1); (0x13A, 0x148, 2, -1);
   (0x14B, 0x177, 2, -1); (0x17A, 0x17E, 2, -1); (0x17F, 0x17F, 1, -300);
   (0x180, 0x180, 1, 195); (0x183, 0x185, 2, -1); (0x188, 0x188, 1, -1);
   (0x18C, 0x18C, 1, -1); (0x192, 0x192, 1, -1); (0x195, 0x195, 1, 97);
   (0x199, 0x199, 1, -1); (0x19A, 0x19A, 1, 163); (0x19E, 0x19E, 1, 130);
   (0x1A1, 0x1A5, 2, -1); (0x1A8, 0x1A8, 1, -1); (0x1AD, 0x1AD, 1, -1);
   (0x1B0, 0x1B0, 1, -1); (0x1B4, 0x1B6, 2, -1); (0x1B9, 0x1B9, 1, -1);
   (0x1BD, 0x1BD, 1, -1); (0x1BF, 0x1BF, 1, 56); (0x1C4, 0x1C4, 1, 1);
   (0x1C6, 0x1C6, 1, -1); (0x1C7, 0x1C7, 1, 1); (0x1C9, 0x1C9, 1, -1);
   (0x1CA, 0x1CA, 1, 1); (0x1CC, 0x1DC, 2, -1); (0x1DD, 0x1DD, 1, -79);
   (0x1DF, 0x1EF, 2, -1); (0x1F1, 0x1F1, 1, 1); (0x1F3, 0x1F5, 2, -1);
   (0x1F9, 0x21F, 2, -1); (0x223, 0x233, 2, -1); (0x23C, 0x23C, 1, -1);
   (0x23F, 0x240, 1, 10815); (0x242, 0x242, 1, -1); (0x247, 0x24F, 2, -1);
   (0x250, 0x250, 1, 10783); (0x251, 0x251, 1, 10780);
   (0x252, 0x252, 1, 10782); (0x253, 0x253, 1, -210);
   (0x254, 0x254, 1, -206); (0x256, 0x257, 1, -205); (0x259, 0x259, 1, -202);
   (0x25B, 0x25B, 1, -203); (0x25C, 0x25C, 1, 42319);
   (0x260, 0x260, 1, -205); (0x261, 0x261, 1, 42315);
   (0x263, 0x263, 1, -207); (0x265, 0x265, 1, 42280);
   (0x266, 0x266, 1, 42308); (0x268, 0x268, 1, -209);
   (0x269, 0x269, 1, -211); (0x26A, 0x26A, 1, 42308);
   (0x26B, 0x26B, 1, 10743); (0x26C, 0x26C, 1, 42305);
   (0x26F, 0x26F, 1, -211); (0x271, 0x271, 1, 10749);
   (0x272, 0x272, 1, -213); (0x275, 0x275, 1, -214);
   (0x27D, 0x27D, 1, 10727); (0x280, 0x280, 1, -218);
   (0x282, 0x282, 1, 42307); (0x283, 0x283, 1, -218);
   (0x287, 0x287, 1, 42282); (0x288, 0x288, 1, -218); (0x289, 0x289, 1, -69);
   (0x28A, 0x28B, 1, -217); (0x28C, 0x28C, 1, -71); (0x292, 0x292, 1, -219);
   (0x29D, 0x29D, 1, 42261); (0x29E, 0x29E, 1, 42258); (0x345, 0x345, 1, 84);
   (0x371, 0x373, 2, -1); (0x377, 0x377, 1, -1); (0x37B, 0x37D, 1, 130);
   (0x3AC, 0x3AC, 1, -38); (0x3AD, 0x3AF, 1, -37); (0x3B1, 0x3C1, 1, -32);
   (0x3C2, 0x3C2, 1, -31); (0x3C3, 0x3CB, 1, -32); (0x3CC, 0x3CC, 1, -64);
   (0x3CD, 0x3CE, 1, -63); (0x3D0, 0x3D0, 1, -62); (0x3D1, 0x3D1, 1, -57);
   (0x3D5, 0x3D5, 1, -47); (0x3D6, 0x3D6, 1, -54); (0x3D7, 0x3D7, 1, -8);
   (0x3D9, 0x3EF, 2, -1); (0x3F0, 0x3F0, 1, -86); (0x3F1, 0x3F1, 1, -80);
   (0x3F2, 0x3F2, 1, 7); (0x3F3, 0x3F3, 1, -116); (0x3F5, 0x3F5, 1, -96);
   (0x3F8, 0x3F8, 1, -1); (0x3FB, 0x3FB, 1, -1); (0x430, 0x44F, 1, -32);
   (0x450, 0x45F, 1, -80); (0x461, 0x481, 2, -1); (0x48B, 0x4BF, 2, -1);
   (0x4C2, 0x4CE, 2, -1); (0x4CF, 0x4CF, 1, -15); (0x4D1, 0x52F, 2, -1);
   (0x561, 0x586, 1, -48); (0x13F8, 0x13FD, 1, -8);
   (0x1C80, 0x1C80, 1, -6254); (0x1C81, 0x1C81, 1, -6253);
   (0x1C82, 0x1C82, 1, -6244); (0x1C83, 0x1C84, 1, -6242);
   (0x1C85, 0x1C85, 1, -6243); (0x1C86, 0x1C86, 1, -6236);
   (0x1C87, 0x1C87, 1, -6181); (0x1C88, 0x1C88, 1, 35266);
   (0x1D79, 0x1D79, 1, 35332); (0x1D7D, 0x1D7D, 1, 3814);
   (0x1D8E, 0x1D8E, 1, 35384); (0x1E01, 0x1E95, 2, -1);
   (0x1E9B, 0x1E9B, 1, -59); (0x1EA1, 0x1EFF, 2, -1); (0x1F00, 0x1F07, 1, 8);
   (0x1F10, 0x1F15, 1, 8); (0x1F20, 0x1F27, 1, 8); (0x1F30, 0x1F37, 1, 8);
   (0x1F40, 0x1F45, 1, 8); (0x1F51, 0x1F57, 2, 8); (0x1F60, 0x1F67, 1, 8);
   (0x1F70, 0x1F71, 1, 74); (0x1F72, 0x1F75, 1, 86);
   (0x1F76, 0x1F77, 1, 100); (0x1F78, 0x1F79, 1, 128);
   (0x1F7A, 0x1F7B, 1, 112); (0x1F7C, 0x1F7D, 1, 126);
   (0x1F80, 0x1F87, 1, 8); (0x1F90, 0x1F97, 1, 8); (0x1FA0, 0x1FA7, 1, 8);
   (0x1FB0, 0x1FB1, 1, 8); (0x1FB3, 0x1FB3, 1, 9);
   (0x1FBE, 0x1FBE, 1, -7205); (0x1FC3, 0x1FC3, 1, 9);
   (0x1FD0, 0x1FD1, 1, 8); (0x1FE0, 0x1FE1, 1, 8); (0x1FE5, 0x1FE5, 1, 7);
   (0x1FF3, 0x1FF3, 1, 9); (0x214E, 0x214E, 1, -28);
   (0x2170, 0x217F, 1, -16); (0x2184, 0x2184, 1, -1);
   (0x24D0, 0x24E9, 1, -26); (0x2C30, 0x2C5F, 1, -48);
   (0x2C61, 0x2C61, 1, -1); (0x2C65, 0x2C65, 1, -10795);
   (0x2C66, 0x2C66, 1, -10792); (0x2C68, 0x2C6C, 2, -1);
   (0x2C73, 0x2C73, 1, -1); (0x2C76, 0x2C76, 1, -1); (0x2C81, 0x2CE3, 2, -1);
   (0x2CEC, 0x2CEE, 2, -1); (0x2CF3, 0x2CF3, 1, -1);
   (0x2D00, 0x2D25, 1, -7264); (0x2D27, 0x2D27, 1, -7264);
   (0x2D2D, 0x2D2D, 1, -7264); (0xA641, 0xA66D, 2, -1);
   (0xA681, 0xA69B, 2, -1); (0xA723, 0xA72F, 2, -1); (0xA733, 0xA76F, 2, -1);
   (0xA77A, 0xA77C, 2, -1); (0xA77F, 0xA787, 2, -1); (0xA78C, 0xA78C, 1, -1);
   (0xA791, 0xA793, 2, -1); (0xA794, 0xA794, 1, 48); (0xA797, 0xA7A9, 2, -1);
   (0xA7B5, 0xA7C3, 2, -1); (0xA7C8, 0xA7CA, 2, -1); (0xA7D1, 0xA7D1, 1, -1);
   (0xA7D7, 0xA7D9, 2, -1); (0xA7F6, 0xA7F6, 1, -1);
   (0xAB53, 0xAB53, 1, -928); (0xAB70, 0xABBF, 1, -38864);
   (0xFF41, 0xFF5A, 1, -32); (0x10428, 0x1044F, 1, -40);
   (0x104D8, 0x104FB, 1, -40); (0x10597, 0x105A1, 1, -39);
   (0x105A3, 0x105B1, 1, -39); (0x105B3, 0x105B9, 1, -39);
   (0x105BB, 0x105BC, 1, -39); (0x10CC0, 0x10CF2, 1, -64);
   (0x118C0, 0x118DF, 1, -32); (0x16E60, 0x16E7F, 1, -32);
   (0x1E922, 0x1E943, 1, -34)].

(** The code points whose titlecase form has several code points. *)
Definition title_special : list (Z * list Z) :=
  [(0xDF, [0x53; 0x73]); (0x149, [0x2BC; 0x4E]); (0x1F0, [0x4A; 0x30C]);
   (0x390, [0x399; 0x308; 0x301]); (0x3B0, [0x3A5; 0x308; 0x301]);
   (0x587, [0x535; 0x582]); (0x1E96, [0x48; 0x331]); (0x1E97, [0x54; 0x308]);
   (0x1E98, [0x57; 0x30A]); (0x1E99, [0x59; 0x30A]); (0x1E9A, [0x41; 0x2BE]);
   (0x1F50, [0x3A5; 0x313]); (0x1F52, [0x3A5; 0x313; 0x300]);
   (0x1F54, [0x3A5; 0x313; 0x301]); (0x1F56, [0x3A5; 0x313; 0x342]);
   (0x1FB2, [0x1FBA; 0x345]); (0x1FB4, [0x386; 0x345]);
   (0x1FB6, [0x391; 0x342]); (0x1FB7, [0x391; 0x342; 0x345]);
   (0x1FC2, [0x1FCA; 0x345]); (0x1FC4, [0x389; 0x345]);
   (0x1FC6, [0x397; 0x342]); (0x1FC7, [0x397; 0x342; 0x345]);
   (0x1FD2, [0x399; 0x308; 0x300]); (0x1FD3, [0x399; 0x308; 0x301]);
   (0x1FD6, [0x399; 0x342]); (0x1FD7, [0x399; 0x308; 0x342]);
   (0x1FE2, [0x3A5; 0x308; 0x300]); (0x1FE3, [0x3A5; 0x308; 0x301]);
   (0x1FE4, [0x3A1; 0x313]); (0x1FE6, [0x3A5; 0x342]);
   (0x1FE7, [0x3A5; 0x308; 0x342]); (0x1FF2, [0x1FFA; 0x345]);
   (0x1FF4, [0x38F; 0x345]); (0x1FF6, [0x3A9; 0x342]);
   (0x1FF7, [0x3A9; 0x342; 0x345]); (0xFB00, [0x46; 0x66]);
   (0xFB01, [0x46; 0x69]); (0xFB02, [0x46; 0x6C]);
   (0xFB03, [0x46; 0x66; 0x69]); (0xFB04, [0x46; 0x66; 0x6C]);
   (0xFB05, [0x53; 0x74]); (0xFB06, [0x53; 0x74]); (0xFB13, [0x544; 0x576]);
   (0xFB14, [0x544; 0x565]); (0xFB15, [0x544; 0x56B]);
   (0xFB16, [0x54E; 0x576]); (0xFB17, [0x544; 0x56D])].

(** The code points with the property Cased. *)
Definition cased_ranges : list (Z * Z) :=
  [(0x41, 0x5A); (0x61, 0x7A); (0xAA, 0xAA); (0xB5, 0xB5); (0xBA, 0xBA);
   (0xC0, 0xD6); (0xD8, 0xF6); (0xF8, 0x1BA); (0x1BC, 0x1BF); (0x1C4, 0x293);
   (0x295, 0x2B8); (0x2C0, 0x2C1); (0x2E0, 0x2E4); (0x345, 0x345);
   (0x370, 0x373); (0x376, 0x377); (0x37A, 0x37D); (0x37F, 0x37F);
   (0x386, 0x386); (0x388, 0x38A); (0x38C, 0x38C); (0x38E, 0x3A1);
   (0x3A3, 0x3F5); (0x3F7, 0x481); (0x48A, 0x52F); (0x531, 0x556);
   (0x560, 0x588); (0x10A0, 0x10C5); (0x10C7, 0x10C7); (0x10CD, 0x10CD);
   (0x10D0, 0x10FA); (0x10FD, 0x10FF); (0x13A0, 0x13F5); (0x13F8, 0x13FD);
   (0x1C80, 0x1C88); (0x1C90, 0x1CBA); (0x1CBD, 0x1CBF); (0x1D00, 0x1DBF);
   (0x1E00, 0x1F15); (0x1F18, 0x1F1D); (0x1F20, 0x1F45); (0x1F48, 0x1F4D);
   (0x1F50, 0x1F57); (0x1F59, 0x1F59); (0x1F5B, 0x1F5B); (0x1F5D, 0x1F5D);
   (0x1F5F, 0x1F7D); (0x1F80, 0x1FB4); (0x1FB6, 0x1FBC); (0x1FBE, 0x1FBE);
   (0x1FC2, 0x1FC4); (0x1FC6, 0x1FCC); (0x1FD0, 0x1FD3); (0x1FD6, 0x1FDB);
   (0x1FE0, 0x1FEC); (0x1FF2, 0x1FF4); (0x1FF6, 0x1FFC); (0x2071, 0x2071);
   (0x207F, 0x207F); (0x2090, 0x209C); (0x2102, 0x2102); (0x2107, 0x2107);
   (0x210A, 0x2113); (0x2115, 0x2115); (0x2119, 0x211D); (0x2124, 0x2124);
   (0x2126, 0x2126); (0x2128, 0x2128); (0x212A, 0x212D); (0x212F, 0x2134);
   (0x2139, 0x2139); (0x213C, 0x213F); (0x2145, 0x2149); (0x214E, 0x214E);
   (0x2160, 0x217F); (0x2183, 0x2184); (0x24B6, 0x24E9); (0x2C00, 0x2CE4);
   (0x2CEB, 0x2CEE); (0x2CF2, 0x2CF3); (0x2D00, 0x2D25); (0x2D27, 0x2D27);
   (0x2D2D, 0x2D2D); (0xA640, 0xA66D); (0xA680, 0xA69D); (0xA722, 0xA787);
   (0xA78B, 0xA78E); (0xA790, 0xA7CA); (0xA7D0, 0xA7D1); (0xA7D3, 0xA7D3);
   (0xA7D5, 0xA7D9); (0xA7F5, 0xA7F6); (0xA7F8, 0xA7FA); (0xAB30, 0xAB5A);
   (0xAB5C, 0xAB68); (0xAB70, 0xABBF); (0xFB00, 0xFB06); (0xFB13, 0xFB17);
   (0xFF21, 0xFF3A); (0xFF41, 0xFF5A); (0x10400, 0x1044F);
   (0x104B0, 0x104D3); (0x104D8, 0x104FB); (0x10570, 0x1057A);
   (0x1057C, 0x1058A); (0x1058C, 0x10592); (0x10594, 0x10595);
   (0x10597, 0x105A1); (0x105A3, 0x105B1); (0x105B3, 0x105B9);
   (0x105BB, 0x105BC); (0x10780, 0x10780); (0x10783, 0x10785);
   (0x10787, 0x107B0); (0x107B2, 0x107BA); (0x10C80, 0x10CB2);
   (0x10CC0, 0x10CF2); (0x118A0, 0x118DF); (0x16E40, 0x16E7F);
   (0x1D400, 0x1D454); (0x1D456, 0x1D49C); (0x1D49E, 0x1D49F);
   (0x1D4A2, 0x1D4A2); (0x1D4A5, 0x1D4A6); (0x1D4A9, 0x1D4AC);
   (0x1D4AE, 0x1D4B9); (0x1D4BB, 0x1D4BB); (0x1D4BD, 0x1D4C3);
   (0x1D4C5, 0x1D505); (0x1D507, 0x1D50A); (0x1D50D, 0x1D514);
   (0x1D516, 0x1D51C); (0x1D51E, 0x1D539); (0x1D53B, 0x1D53E);
   (0x1D540, 0x1D544); (0x1D546, 0x1D546); (0x1D54A, 0x1D550);
   (0x1D552, 0x1D6A5); (0x1D6A8, 0x1D6C0); (0x1D6C2, 0x1D6DA);
   (0x1D6DC, 0x1D6FA); (0x1D6FC, 0x1D714); (0x1D716, 0x1D734);
   (0x1D736, 0x1D74E); (0x1D750, 0x1D76E); (0x1D770, 0x1D788);
   (0x1D78A, 0x1D7A8); (0x1D7AA, 0x1D7C2); (0x1D7C4, 0x1D7CB);
   (0x1DF00, 0x1DF09); (0x1DF0B, 0x1DF1E); (0x1E900, 0x1E943);
   (0x1F130, 0x1F149); (0x1F150, 0x1F169); (0x1F170, 0x1F189)].

(** The code points with the property Case_Ignorable. *)
Definition case_ignorable_ranges : list (Z * Z) :=
  [(0x27, 0x27); (0x2E, 0x2E); (0x3A, 0x3A); (0x5E, 0x5E); (0x60, 0x60);
   (0xA8, 0xA8); (0xAD, 0xAD); (0xAF, 0xAF); (0xB4, 0xB4); (0xB7, 0xB8);
   (0x2B0, 0x36F); (0x374, 0x375); (0x37A, 0x37A); (0x384, 0x385);
   (0x387, 0x387); (0x483, 0x489); (0x559, 0x559); (0x55F, 0x55F);
   (0x591, 0x5BD); (0x5BF, 0x5BF); (0x5C1, 0x5C2); (0x5C4, 0x5C5);
   (0x5C7, 0x5C7); (0x5F4, 0x5F4); (0x600, 0x605); (0x610, 0x61A);
   (0x61C, 0x61C); (0x640, 0x640); (0x64B, 0x65F); (0x670, 0x670);
   (0x6D6, 0x6DD); (0x6DF, 0x6E8); (0x6EA, 0x6ED); (0x70F, 0x70F);
   (0x711, 0x711); (0x730, 0x74A); (0x7A6, 0x7B0); (0x7EB, 0x7F5);
   (0x7FA, 0x7FA); (0x7FD, 0x7FD); (0x816, 0x82D); (0x859, 0x85B);
   (0x888, 0x888); (0x890, 0x891); (0x898, 0x89F); (0x8C9, 0x902);
   (0x93A, 0x93A); (0x93C, 0x93C); (0x941, 0x948); (0x94D, 0x94D);
   (0x951, 0x957); (0x962, 0x963); (0x971, 0x971); (0x981, 0x981);
   (0x9BC, 0x9BC); (0x9C1, 0x9C4); (0x9CD, 0x9CD); (0x9E2, 0x9E3);
   (0x9FE, 0x9FE); (0xA01, 0xA02); (0xA3C, 0xA3C); (0xA41, 0xA42);
   (0xA47, 0xA48); (0xA4B, 0xA4D); (0xA51, 0xA51); (0xA70, 0xA71);
   (0xA75, 0xA75); (0xA81, 0xA82); (0xABC, 0xABC); (0xAC1, 0xAC5);
   (0xAC7, 0xAC8); (0xACD, 0xACD); (0xAE2, 0xAE3); (0xAFA, 0xAFF);
   (0xB01, 0xB01); (0xB3C, 0xB3C); (0xB3F, 0xB3F); (0xB41, 0xB44);
   (0xB4D, 0xB4D); (0xB55, 0xB56); (0xB62, 0xB63); (0xB82, 0xB82);
   (0xBC0, 0xBC0); (0xBCD, 0xBCD); (0xC00, 0xC00); (0xC04, 0xC04);
   (0xC3C, 0xC3C); (0xC3E, 0xC40); (0xC46, 0xC48); (0xC4A, 0xC4D);
   (0xC55, 0xC56); (0xC62, 0xC63); (0xC81, 0xC81); (0xCBC, 0xCBC);
   (0xCBF, 0xCBF); (0xCC6, 0xCC6); (0xCCC, 0xCCD); (0xCE2, 0xCE3);
   (0xD00, 0xD01); (0xD3B, 0xD3C); (0xD41, 0xD44); (0xD4D, 0xD4D);
   (0xD62, 0xD63); (0xD81, 0xD81); (0xDCA, 0xDCA); (0xDD2, 0xDD4);
   (0xDD6, 0xDD6); (0xE31, 0xE31); (0xE34, 0xE3A); (0xE46, 0xE4E);
   (0xEB1, 0xEB1); (0xEB4, 0xEBC); (0xEC6, 0xEC6); (0xEC8, 0xECD);
   (0xF18, 0xF19); (0xF35, 0xF35); (0xF37, 0xF37); (0xF39, 0xF39);
   (0xF71, 0xF7E); (0xF80, 0xF84); (0xF86, 0xF87); (0xF8D, 0xF97);
   (0xF99, 0xFBC); (0xFC6, 0xFC6); (0x102D, 0x1030); (0x1032, 0x1037);
   (0x1039, 0x103A); (0x103D, 0x103E); (0x1058, 0x1059); (0x105E, 0x1060);
   (0x1071, 0x1074); (0x1082, 0x1082); (0x1085, 0x1086); (0x108D, 0x108D);
   (0x109D, 0x109D); (0x10FC, 0x10FC); (0x135D, 0x135F); (0x1712, 0x1714);
   (0x1732, 0x1733); (0x1752, 0x1753); (0x1772, 0x1773); (0x17B4, 0x17B5);
   (0x17B7, 0x17BD); (0x17C6, 0x17C6); (0x17C9, 0x17D3); (0x17D7, 0x17D7);
   (0x17DD, 0x17DD); (0x180B, 0x180F); (0x1843, 0x1843); (0x1885, 0x1886);
   (0x18A9, 0x18A9); (0x1920, 0x1922); (0x1927, 0x1928); (0x1932, 0x1932);
   (0x1939, 0x193B); (0x1A17, 0x1A18); (0x1A1B, 0x1A1B); (0x1A56, 0x1A56);
   (0x1A58, 0x1A5E); (0x1A60, 0x1A60); (0x1A62, 0x1A62); (0x1A65, 0x1A6C);
   (0x1A73, 0x1A7C); (0x1A7F, 0x1A7F); (0x1AA7, 0x1AA7); (0x1AB0, 0x1ACE);
   (0x1B00, 0x1B03); (0x1B34, 0x1B34); (0x1B36, 0x1B3A); (0x1B3C, 0x1B3C);
   (0x1B42, 0x1B42); (0x1B6B, 0x1B73); (0x1B80, 0x1B81); (0x1BA2, 0x1BA5);
   (0x1BA8, 0x1BA9); (0x1BAB, 0x1BAD); (0x1BE6, 0x1BE6); (0x1BE8, 0x1BE9);
   (0x1BED, 0x1BED); (0x1BEF, 0x1BF1); (0x1C2C, 0x1C33); (0x1C36, 0x1C37);
   (0x1C78, 0x1C7D); (0x1CD0, 0x1CD2); (0x1CD4, 0x1CE0); (0x1CE2, 0x1CE8);
   (0x1CED, 0x1CED); (0x1CF4, 0x1CF4); (0x1CF8, 0x1CF9); (0x1D2C, 0x1D6A);
   (0x1D78, 0x1D78); (0x1D9B, 0x1DFF); (0x1FBD, 0x1FBD); (0x1FBF, 0x1FC1);
   (0x1FCD, 0x1FCF); (0x1FDD, 0x1FDF); (0x1FED, 0x1FEF); (0x1FFD, 0x1FFE);
   (0x200B, 0x200F); (0x2018, 0x2019); (0x2024, 0x2024); (0x2027, 0x2027);
   (0x202A, 0x202E); (0x2060, 0x2064); (0x2066, 0x206F); (0x2071, 0x2071);
   (0x207F, 0x207F); (0x2090, 0x209C); (0x20D0, 0x20F0); (0x2C7C, 0x2C7D);
   (0x2CEF, 0x2CF1); (0x2D6F, 0x2D6F); (0x2D7F, 0x2D7F); (0x2DE0, 0x2DFF);
   (0x2E2F, 0x2E2F); (0x3005, 0x3005); (0x302A, 0x302D); (0x3031, 0x3035);
   (0x303B, 0x303B); (0x3099, 0x309E); (0x30FC, 0x30FE); (0xA015, 0xA015);
   (0xA4F8, 0xA4FD); (0xA60C, 0xA60C); (0xA66F, 0xA672); (0xA674, 0xA67D);
   (0xA67F, 0xA67F); (0xA69C, 0xA69F); (0xA6F0, 0xA6F1); (0xA700, 0xA721);
   (0xA770, 0xA770); (0xA788, 0xA78A); (0xA7F2, 0xA7F4); (0xA7F8, 0xA7F9);
   (0xA802, 0xA802); (0xA806, 0xA806); (0xA80B, 0xA80B); (0xA825, 0xA826);
   (0xA82C, 0xA82C); (0xA8C4, 0xA8C5); (0xA8E0, 0xA8F1); (0xA8FF, 0xA8FF);
   (0xA926, 0xA92D); (0xA947, 0xA951); (0xA980, 0xA982); (0xA9B3, 0xA9B3);
   (0xA9B6, 0xA9B9); (0xA9BC, 0xA9BD); (0xA9CF, 0xA9CF); (0xA9E5, 0xA9E6);
   (0xAA29, 0xAA2E); (0xAA31, 0xAA32); (0xAA35, 0xAA36); (0xAA43, 0xAA43);
   (0xAA4C, 0xAA4C); (0xAA70, 0xAA70); (0xAA7C, 0xAA7C); (0xAAB0, 0xAAB0);
   (0xAAB2, 0xAAB4); (0xAAB7, 0xAAB8); (0xAABE, 0xAABF); (0xAAC1, 0xAAC1);
   (0xAADD, 0xAADD); (0xAAEC, 0xAAED); (0xAAF3, 0xAAF4); (0xAAF6, 0xAAF6);
   (0xAB5B, 0xAB5F); (0xAB69, 0xAB6B); (0xABE5, 0xABE5); (0xABE8, 0xABE8);
   (0xABED, 0xABED); (0xFB1E, 0xFB1E); (0xFBB2, 0xFBC2); (0xFE00, 0xFE0F);
   (0xFE13, 0xFE13); (0xFE20, 0xFE2F); (0xFE52, 0xFE52); (0xFE55, 0xFE55);
   (0xFEFF, 0xFEFF); (0xFF07, 0xFF07); (0xFF0E, 0xFF0E); (0xFF1A, 0xFF1A);
   (0xFF3E, 0xFF3E); (0xFF40, 0xFF40); (0xFF70, 0xFF70); (0xFF9E, 0xFF9F);
   (0xFFE3, 0xFFE3); (0xFFF9, 0xFFFB); (0x101FD, 0x101FD);
   (0x102E0, 0x102E0); (0x10376, 0x1037A); (0x10780, 0x10785);
   (0x10787, 0x107B0); (0x107B2, 0x107BA); (0x10A01, 0x10A03);
   (0x10A05, 0x10A06); (0x10A0C, 0x10A0F); (0x10A38, 0x10A3A);
   (0x10A3F, 0x10A3F); (0x10AE5, 0x10AE6); (0x10D24, 0x10D27);
   (0x10EAB, 0x10EAC); (0x10F46, 0x10F50); (0x10F82, 0x10F85);
   (0x11001, 0x11001); (0x11038, 0x11046); (0x11070, 0x11070);
   (0x11073, 0x11074); (0x1107F, 0x11081); (0x110B3, 0x110B6);
   (0x110B9, 0x110BA); (0x110BD, 0x110BD); (0x110C2, 0x110C2);
   (0x110CD, 0x110CD); (0x11100, 0x11102); (0x11127, 0x1112B);
   (0x1112D, 0x11134); (0x11173, 0x11173); (0x11180, 0x11181);
   (0x111B6, 0x111BE); (0x111C9, 0x111CC); (0x111CF, 0x111CF);
   (0x1122F, 0x11231); (0x11234, 0x11234); (0x11236, 0x11237);
   (0x1123E, 0x1123E); (0x112DF, 0x112DF); (0x112E3, 0x112EA);
   (0x11300, 0x11301); (0x1133B, 0x1133C); (0x11340, 0x11340);
   (0x11366, 0x1136C); (0x11370, 0x11374); (0x11438, 0x1143F);
   (0x11442, 0x11444); (0x11446, 0x11446); (0x1145E, 0x1145E);
   (0x114B3, 0x114B8); (0x114BA, 0x114BA); (0x114BF, 0x114C0);
   (0x114C2, 0x114C3); (0x115B2, 0x115B5); (0x115BC, 0x115BD);
   (0x115BF, 0x115C0); (0x115DC, 0x115DD); (0x11633, 0x1163A);
   (0x1163D, 0x1163D); (0x1163F, 0x11640); (0x116AB, 0x116AB);
   (0x116AD, 0x116AD); (0x116B0, 0x116B5); (0x116B7, 0x116B7);
   (0x1171D, 0x1171F); (0x11722, 0x11725); (0x11727, 0x1172B);
   (0x1182F, 0x11837); (0x11839, 0x1183A); (0x1193B, 0x1193C);
   (0x1193E, 0x1193E); (0x11943, 0x11943); (0x119D4, 0x119D7);
   (0x119DA, 0x119DB); (0x119E0, 0x119E0); (0x11A01, 0x11A0A);
   (0x11A33, 0x11A38); (0x11A3B, 0x11A3E); (0x11A47, 0x11A47);
   (0x11A51, 0x11A56); (0x11A59, 0x11A5B); (0x11A8A, 0x11A96);
   (0x11A98, 0x11A99); (0x11C30, 0x11C36); (0x11C38, 0x11C3D);
   (0x11C3F, 0x11C3F); (0x11C92, 0x11CA7); (0x11CAA, 0x11CB0);
   (0x11CB2, 0x11CB3); (0x11CB5, 0x11CB6); (0x11D31, 0x11D36);
   (0x11D3A, 0x11D3A); (0x11D3C, 0x11D3D); (0x11D3F, 0x11D45);
   (0x11D47, 0x11D47); (0x11D90, 0x11D91); (0x11D95, 0x11D95);
   (0x11D97, 0x11D97); (0x11EF3, 0x11EF4); (0x13430, 0x13438);
   (0x16AF0, 0x16AF4); (0x16B30, 0x16B36); (0x16B40, 0x16B43);
   (0x16F4F, 0x16F4F); (0x16F8F, 0x16F9F); (0x16FE0, 0x16FE1);
   (0x16FE3, 0x16FE4); (0x1AFF0, 0x1AFF3); (0x1AFF5, 0x1AFFB);
   (0x1AFFD, 0x1AFFE); (0x1BC9D, 0x1BC9E); (0x1BCA0, 0x1BCA3);
   (0x1CF00, 0x1CF2D); (0x1CF30, 0x1CF46); (0x1D167, 0x1D169);
   (0x1D173, 0x1D182); (0x1D185, 0x1D18B); (0x1D1AA, 0x1D1AD);
   (0x1D242, 0x1D244); (0x1DA00, 0x1DA36); (0x1DA3B, 0x1DA6C);
   (0x1DA75, 0x1DA75); (0x1DA84, 0x1DA84); (0x1DA9B, 0x1DA9F);
   (0x1DAA1, 0x1DAAF); (0x1E000, 0x1E006); (0x1E008, 0x1E018);
   (0x1E01B, 0x1E021); (0x1E023, 0x1E024); (0x1E026, 0x1E02A);
   (0x1E130, 0x1E13D); (0x1E2AE, 0x1E2AE); (0x1E2EC, 0x1E2EF);
   (0x1E8D0, 0x1E8D6); (0x1E944, 0x1E94B); (0x1F3FB, 0x1F3FF);
   (0xE0001, 0xE0001); (0xE0020, 0xE007F); (0xE0100, 0xE01EF)].

End CaseTables.

(** ** Python strings *)

Module PyStr.

(** A string is the sequence of its code points. *)
Abbreviation str := (list N).

(** The string of an ASCII literal of the source. *)
Definition py (s : string) : str := List.map N_of_ascii (list_ascii_of_string s).

(** The properties Cased and Case_Ignorable of a code point. *)
Definition is_cased (c : N) : bool :=
  CaseTables.in_ranges CaseTables.cased_ranges (Z.of_N c).

Definition is_case_ignorable (c : N) : bool :=
  CaseTables.in_ranges CaseTables.case_ignorable_ranges (Z.of_N c).

(** The lowercase form of one code point.  It is one code point, except
    for U+0130 (capital I with dot above), which becomes [i] and the
    combining dot above. *)
Definition to_lower (c : N) : N :=
  Z.to_N (CaseTables.shift CaseTables.lower_runs (Z.of_N c)).

Definition to_lower_full (c : N) : str :=
  if (c =? 0x130)%N then [0x69; 0x307]%N else [to_lower c].

(** The titlecase form of one code point. *)
Definition to_title_full (c : N) : str :=
  match CaseTables.special CaseTables.title_special (Z.of_N c) with
  | Some image => List.map Z.to_N image
  | None => [Z.to_N (CaseTables.shift CaseTables.title_runs (Z.of_N c))]
  end.

(** The first code point of [s] that is not case-ignorable. *)
Fixpoint first_not_ignorable (s : str) : option N :=
  match s with
  | [] => None
  | c :: s' => if is_case_ignorable c then first_not_ignorable s' else Some c
  end.

(** The capital sigma U+03A3 is in final position when, case-ignorable
    code points apart, a cased code point comes before it and none comes
    after it.  [before] holds the code points before the sigma, the
    nearest first, [after] the ones after it. *)
Definition final_sigma (before after : str) : bool :=
  match first_not_ignorable before with
  | None => false
  | Some c =>
      is_cased c &&
      match first_not_ignorable after with
      | None => true
      | Some c' => negb (is_cased c')
      end
  end.

(** The lowercase form of the code point [c] of a string, between the
    code points [before] (the nearest first) and [after]: the capital
    sigma becomes the final sigma U+03C2 in final position and the small
    sigma U+03C3 elsewhere. *)
Definition lower_at (before : str) (c : N) (after : str) : str :=
  if (c =? 0x3A3)%N then [if final_sigma before after then 0x3C2 else 0x3C3]%N
  else to_lower_full c.

Fixpoint lower_from (before s : str) : str :=
  match s with
  | [] => []
  | c :: s' => lower_at before c s' ++ lower_from (c :: before) s'
  end.

(** [str.lower()] *)
Definition lower (s : str) : str := lower_from [] s.

(** [s.startswith(k)]. *)
Fixpoint startswith (k s : str) : bool :=
  match k, s with
  | [], _ => true
  | _ :: _, [] => false
  | a :: k', b :: s' => (a =? b)%N && startswith k' s'
  end.

(** [k in s] on strings: [k] occurs in [s] as a contiguous substring. *)
Fixpoint contains (k s : str) : bool :=
  startswith k s ||
  match s with
  | [] => false
  | _ :: s' => contains k s'
  end.

(** The property [contains] decides. *)
Definition substring_of (k s : str) : Prop :=
  exists pre post, s = pre ++ k ++ post.

(** [s[:n]] for a literal [n >= 0]. *)
Definition slice_to (n : nat) (s : str) : str := firstn n s.

(** [sum(...)] over integers. *)
Definition py_sum (l : list Z) : Z := fold_left Z.add l 0.

End PyStr.
Import PyStr.

(** ** The keyword tables of [__init__] *)

Definition beginner_keywords : list str :=
  List.map py
    ["beginner"; "intro"; "introduction"; "basics"; "fundamentals";
     "getting started"; "tutorial"; "guide"; "101"; "basic"]%string.

Definition intermediate_keywords : list str :=
  List.map py
    ["advanced"; "intermediate"; "deep dive"; "exploitation"; "bypass";
     "analysis"; "reverse engineering"; "advanced techniques"]%string.

(** ** [classify_difficulty] *)

(** [text = f"{title} {description}".lower()] *)
Definition classify_text (title description : str) : str :=
  lower (title ++ py " " ++ description).

(** [sum(1 for keyword in keywords if keyword in text)] *)
Definition keyword_score (keywords : list str) (text : str) : Z :=
  py_sum (List.map (fun _ => 1) (List.filter (fun keyword => contains keyword text) keywords)).

Definition beginner_score (title description : str) : Z :=
  keyword_score beginner_keywords (classify_text title description).

Definition intermediate_score (title description : str) : Z :=
  keyword_score intermediate_keywords (classify_text title description).

Definition classify_difficulty (title description : str) : str :=
  if beginner_score title description >? intermediate_score title description
  then py "beginner"
  else if intermediate_score title description >? 0
  then py "intermediate"
  else py "general".

(** ** [get_appropriate_channel] *)

Definition writeup_keywords : list str :=
  List.map py ["writeup"; "write-up"; "walkthrough"; "solution"]%string.

Definition ctf_keywords : list str :=
  List.map py ["ctf"; "capture the flag"; "competition"; "challenge"]%string.

(** [any(keyword in title.lower() or keyword in description.lower()
         for keyword in keywords)] *)
Definition any_keyword (keywords : list str) (title description : str) : bool :=
  List.existsb
    (fun keyword => contains keyword (lower title) || contains keyword (lower description))
    keywords.

Definition get_appropriate_channel (category title description : str) : str :=
  let difficulty := classify_difficulty title description in
  if any_keyword writeup_keywords title description then py "writeups"
  else if any_keyword ctf_keywords title description then py "ctf"
  else category.

(** ** [generate_item_id] *)

(** [str.encode()]: UTF-8.  Bytes are integers below 256.  A surrogate
    code point (U+D800..U+DFFF) cannot be encoded: Python raises
    [UnicodeEncodeError], here [None].  A number above U+10FFFF is not a
    code point of a Python string. *)
Module Utf8.

Definition encode_cp (c : N) : option (list Z) :=
  let z := Z.of_N c in
  if z <? 0x80 then Some [z]
  else if z <? 0x800 then
    Some [Z.lor 0xC0 (Z.shiftr z 6); Z.lor 0x80 (Z.land z 0x3F)]
  else if z <? 0x10000 then
    if (0xD800 <=? z) && (z <=? 0xDFFF) then None
    else Some [Z.lor 0xE0 (Z.shiftr z 12);
               Z.lor 0x80 (Z.land (Z.shiftr z 6) 0x3F);
               Z.lor 0x80 (Z.land z 0x3F)]
  else if z <? 0x110000 then
    Some [Z.lor 0xF0 (Z.shiftr z 18);
          Z.lor 0x80 (Z.land (Z.shiftr z 12) 0x3F);
          Z.lor 0x80 (Z.land (Z.shiftr z 6) 0x3F);
          Z.lor 0x80 (Z.land z 0x3F)]
  else None.

Fixpoint encode (s : str) : option (list Z) :=
  match s with
  | [] => Some []
  | c :: s' =>
      match encode_cp c, encode s' with
      | Some bs, Some rest => Some (bs ++ rest)
      | _, _ => None
      end
  end.

End Utf8.

(** [hashlib.md5(...).hexdigest()], after RFC 1321.  Words are integers
    below [2^32], additions wrap around. *)
Module MD5.

Definition w32 (x : Z) : Z := Z.land x 0xFFFFFFFF.

Definition rotl (x c : Z) : Z :=
  w32 (Z.lor (Z.shiftl x c) (Z.shiftr x (32 - c))).

Definition not32 (x : Z) : Z := Z.lxor x 0xFFFFFFFF.

Definition K : list Z :=
  [0xd76aa478; 0xe8c7b756; 0x242070db; 0xc1bdceee;
   0xf57c0faf; 0x4787c62a; 0xa8304613; 0xfd469501;
   0x698098d8; 0x8b44f7af; 0xffff5bb1; 0x895cd7be;
   0x6b901122; 0xfd987193; 0xa679438e; 0x49b40821;
   0xf61e2562; 0xc040b340; 0x265e5a51; 0xe9b6c7aa;
   0xd62f105d; 0x02441453; 0xd8a1e681; 0xe7d3fbc8;
   0x21e1cde6; 0xc33707d6; 0xf4d50d87; 0x455a14ed;
   0xa9e3e905; 0xfcefa3f8; 0x676f02d9; 0x8d2a4c8a;
   0xfffa3942; 0x8771f681; 0x6d9d6122; 0xfde5380c;
   0xa4beea44; 0x4bdecfa9; 0xf6bb4b60; 0xbebfbc70;
   0x289b7ec6; 0xeaa127fa; 0xd4ef3085; 0x04881d05;
   0xd9d4d039; 0xe6db99e5; 0x1fa27cf8; 0xc4ac5665;
   0xf4292244; 0x432aff97; 0xab9423a7; 0xfc93a039;
   0x655b59c3; 0x8f0ccc92; 0xffeff47d; 0x85845dd1;
   0x6fa87e4f; 0xfe2ce6e0; 0xa3014314; 0x4e0811a1;
   0xf7537e82; 0xbd3af235; 0x2ad7d2bb; 0xeb86d391].

Definition SHIFT : list Z :=
  [7; 12; 17; 22; 7; 12; 17; 22; 7; 12; 17; 22; 7; 12; 17; 22;
   5; 9; 14; 20; 5; 9; 14; 20; 5; 9; 14; 20; 5; 9; 14; 20;
   4; 11; 16; 23; 4; 11; 16; 23; 4; 11; 16; 23; 4; 11; 16; 23;
   6; 10; 15; 21; 6; 10; 15; 21; 6; 10; 15; 21; 6; 10; 15; 21].

(** The four chaining words. *)
Record digest := Digest { dA : Z; dB : Z; dC : Z; dD : Z }.

Definition init : digest :=
  Digest 0x67452301 0xefcdab89 0x98badcfe 0x10325476.

(** Padding: a 1 bit, zeros up to 56 modulo 64 bytes, then the length in
    bits as 8 little-endian bytes. *)
Definition le_bytes (n : nat) (x : Z) : list Z :=
  List.map (fun i => Z.land (Z.shiftr x (8 * Z.of_nat i)) 0xFF) (seq 0 n).

Definition pad (msg : list Z) : list Z :=
  let len := Z.of_nat (length msg) in
  msg ++ [0x80] ++ repeat 0 (Z.to_nat ((55 - len) mod 64))
      ++ le_bytes 8 ((8 * len) mod 2 ^ 64).

Definition le_word (bs : list Z) : Z :=
  fold_right (fun b acc => b + 256 * acc) 0 bs.

(** The 16 words of the [i]-th 64-byte block. *)
Definition block_words (bs : list Z) (i : nat) : list Z :=
  let block := firstn 64 (skipn (64 * i) bs) in
  List.map (fun g => le_word (firstn 4 (skipn (4 * g) block))) (seq 0 16).

Definition mix (i : Z) (b c d : Z) : Z * Z :=
  if i <? 16 then (Z.lor (Z.land b c) (Z.land (not32 b) d), i)
  else if i <? 32 then (Z.lor (Z.land d b) (Z.land (not32 d) c), (5 * i + 1) mod 16)
  else if i <? 48 then (Z.lxor (Z.lxor b c) d, (3 * i + 5) mod 16)
  else (Z.lxor c (Z.lor b (not32 d)), (7 * i) mod 16).

Definition step (M : list Z) (st : digest) (i : nat) : digest :=
  let '(Digest a b c d) := st in
  let '(f, g) := mix (Z.of_nat i) b c d in
  let f' := w32 (f + a + nth i K 0 + nth (Z.to_nat g) M 0) in
  Digest d (w32 (b + rotl f' (nth i SHIFT 0))) b c.

Definition compress (h : digest) (M : list Z) : digest :=
  let '(Digest a b c d) := fold_left (step M) (seq 0 64) h in
  Digest (w32 (dA h + a)) (w32 (dB h + b)) (w32 (dC h + c)) (w32 (dD h + d)).

Definition md5 (msg : list Z) : digest :=
  let bs := pad msg in
  fold_left (fun h i => compress h (block_words bs i))
            (seq 0 (length bs / 64)) init.

(** The 16 bytes of the digest. *)
Definition digest_bytes (h : digest) : list Z :=
  le_bytes 4 (dA h) ++ le_bytes 4 (dB h) ++ le_bytes 4 (dC h) ++ le_bytes 4 (dD h).

Definition hex_digit (d : Z) : N :=
  Z.to_N (if d <? 10 then 48 + d else 87 + d).

Definition hex_byte (b : Z) : str := [hex_digit (b / 16); hex_digit (b mod 16)].

Definition hexdigest (h : digest) : str := concat (List.map hex_byte (digest_bytes h)).

End MD5.

(** [hashlib.md5(f"{title}{link}".encode()).hexdigest()]; [None] when the
    encoding raises. *)
Definition generate_item_id (title link : str) : option str :=
  match Utf8.encode (title ++ link) with
  | Some bytes => Some (MD5.hexdigest (MD5.md5 bytes))
  | None => None
  end.

(** ** Dates and times *)

(** A naive [datetime] is the number of microseconds since
    [datetime.min] (0001-01-01T00:00:00); the order of datetimes is the
    order of these numbers.  A [timedelta] is a number of microseconds. *)
Module PyTime.

(** [time.struct_time], the nine-field tuple of the feed parser. *)
Record struct_time := {
  tm_year : Z; tm_mon : Z; tm_mday : Z;
  tm_hour : Z; tm_min : Z; tm_sec : Z;
  tm_wday : Z; tm_yday : Z; tm_isdst : Z
}.

Definition is_leap (y : Z) : bool :=
  (y mod 4 =? 0) && (negb (y mod 100 =? 0) || (y mod 400 =? 0)).

Definition days_in_month (y m : Z) : Z :=
  if (m =? 2) && is_leap y then 29
  else nth (Z.to_nat (m - 1)) [31; 28; 31; 30; 31; 30; 31; 31; 30; 31; 30; 31] 0.

Definition days_before_year (y : Z) : Z :=
  let y1 := y - 1 in y1 * 365 + y1 / 4 - y1 / 100 + y1 / 400.

Definition days_before_month (y m : Z) : Z :=
  py_sum (List.map (fun k => days_in_month y (Z.of_nat k)) (seq 1 (Z.to_nat (m - 1)))).

(** The proleptic Gregorian ordinal of a date; 0001-01-01 is day 1. *)
Definition ymd2ord (y m d : Z) : Z :=
  days_before_year y + days_before_month y m + d.

(** [datetime(year, month, day, hour, minute, second)]; [None] is the
    [ValueError] of a field out of range. *)
Definition datetime (y m d hh mm ss : Z) : option Z :=
  if (1 <=? y) && (y <=? 9999) && (1 <=? m) && (m <=? 12)
     && (1 <=? d) && (d <=? days_in_month y m)
     && (0 <=? hh) && (hh <=? 23) && (0 <=? mm) && (mm <=? 59)
     && (0 <=? ss) && (ss <=? 59)
  then Some (((((ymd2ord y m d - 1) * 24 + hh) * 60 + mm) * 60 + ss) * 1000000)
  else None.

(** [datetime] applied to the first six fields of the tuple. *)
Definition datetime_of_struct (t : struct_time) : option Z :=
  datetime (tm_year t) (tm_mon t) (tm_mday t) (tm_hour t) (tm_min t) (tm_sec t).

(** [timedelta(hours=h)] *)
Definition timedelta_hours (h : Z) : Z := h * 3600 * 1000000.

Definition timedelta_seconds (s : Z) : Z := s * 1000000.

(** [t - delta] for a datetime [t]; [None] is the [OverflowError] of a
    result before [datetime.min]. *)
Definition datetime_sub (t delta : Z) : option Z :=
  if t - delta <? 0 then None else Some (t - delta).

End PyTime.
Import PyTime.

(** ** Feed entries and the outside world *)

(** An entry of the feed parser.  [title] and [link] are read as
    attributes ([None]: the attribute is missing and the access raises
    [AttributeError]); [summary] is read with [getattr(entry, 'summary', '')];
    [published_parsed] is [None] when the attribute is missing or holds
    Python's [None]. *)
Record entry := {
  entry_title : option str;
  entry_link : option str;
  entry_summary : option str;
  entry_published_parsed : option struct_time
}.

(** The embed of a Discord message and the JSON body of the post. *)
Record embed := {
  embed_title : str;
  embed_description : str;
  embed_url : str;
  embed_color : Z;
  embed_footer_text : str;
  embed_timestamp : str
}.

Record payload := {
  payload_embeds : list embed;
  payload_username : str
}.

(** One call [requests.post(url, json=data, timeout=10)]. *)
Record request := {
  request_url : str;
  request_json : payload;
  request_timeout : Z
}.

(** What the call gives back: a response with its status code and text,
    or an exception. *)
Inductive post_result :=
| Response (status_code : Z) (text : str)
| PostRaised.

(** The collaborators.  The [n]-th HTTP post and the [n]-th reading of a
    clock may answer differently from the ones before. *)
Record env := {
  getenv : str -> option str;
  feedparser_parse : str -> option (list entry);
  requests_post : nat -> request -> post_result;
  datetime_now : nat -> Z;
  utcnow_isoformat : nat -> str
}.

(** The bot object with the record of what it did: [posts] are the HTTP
    posts performed so far with their results, oldest first, and [clock]
    counts the clock readings. *)
Record bot := {
  webhooks : gmap str str;
  posted_items : gset str;
  posts : list (request * post_result);
  clock : nat
}.

(** ** [__init__] *)

Definition webhook_variables : list (str * str) :=
  List.map (fun p => (py (fst p), py (snd p)))
    [("cryptography", "CRYPTO_WEBHOOK_URL");
     ("mobile_security", "MOBILE_WEBHOOK_URL");
     ("web_security", "WEB_WEBHOOK_URL");
     ("digital_forensics", "FORENSICS_WEBHOOK_URL");
     ("osint", "OSINT_WEBHOOK_URL");
     ("matlab", "MATLAB_WEBHOOK_URL");
     ("writeups", "WRITEUPS_WEBHOOK_URL");
     ("ctf", "CTF_WEBHOOK_URL")]%string.

(** [{k: v for k, v in self.webhooks.items() if v}]: an unset or empty
    variable gives no webhook. *)
Definition configured_webhooks (E : env) : gmap str str :=
  fold_right
    (fun p (m : gmap str str) =>
       match getenv E (snd p) with
       | Some (c :: v) => <[fst p := c :: v]> m
       | _ => m
       end)
    ∅ webhook_variables.

Definition feeds : list (str * list str) :=
  List.map (fun p => (py (fst p), List.map py (snd p)))
    [("cryptography", ["https://blog.cryptographyengineering.com/feed/";
                       "https://eprint.iacr.org/rss/rss.xml"]);
     ("mobile_security", ["https://blog.zimperium.com/feed/";
                          "https://www.nowsecure.com/blog/feed/"]);
     ("web_security", ["https://portswigger.net/blog/rss";
                       "https://blog.detectify.com/feed/"]);
     ("digital_forensics", ["https://forensicfocus.com/feed/"]);
     ("osint", ["https://www.bellingcat.com/feed/";
                "https://inteltechniques.com/blog/feed/"]);
     ("writeups", ["https://0x00sec.org/latest.rss";
                   "https://www.exploit-db.com/rss.xml"]);
     ("ctf", ["https://ctftime.org/event/list/upcoming/rss/"])]%string.

Definition init (E : env) : bot :=
  {| webhooks := configured_webhooks E;
     posted_items := ∅;
     posts := [];
     clock := 0%nat |}.

(** ** [send_to_discord] *)

(** [d.get(k, default)] on a dictionary literal. *)
Fixpoint dict_get {V : Type} (d : list (str * V)) (k : str) (default : V) : V :=
  match d with
  | [] => default
  | (k', v) :: d' => if decide (k' = k) then v else dict_get d' k default
  end.

Definition colors : list (str * Z) :=
  [(py "cryptography", 0x9932CC); (py "mobile_security", 0xFF6347);
   (py "web_security", 0x1E90FF); (py "digital_forensics", 0xFF4500);
   (py "osint", 0x20B2AA); (py "matlab", 0x0076A8);
   (py "writeups", 0x32CD32); (py "ctf", 0xFF1493)].

Definition emojis : list (str * str) :=
  [(py "cryptography", [0x1F510]); (py "mobile_security", [0x1F4F1]);
   (py "web_security", [0x1F310]); (py "digital_forensics", [0x1F50D]);
   (py "osint", [0x1F575; 0xFE0F]); (py "matlab", [0x1F4CA]);
   (py "writeups", [0x1F4DD]); (py "ctf", [0x1F6A9])]%N.

(** [s.replace('_', ' ')] *)
Definition replace_underscores (s : str) : str :=
  List.map (fun c => if (c =? 95)%N then 32%N else c) s.

(** [s.title()]: a code point after an uncased one, or at the start, is
    replaced by its titlecase form, a code point after a cased one by its
    lowercase form. *)
Fixpoint title_from (before : str) (previous_is_cased : bool) (s : str) : str :=
  match s with
  | [] => []
  | c :: s' =>
      (if previous_is_cased then lower_at before c s' else to_title_full c)
        ++ title_from (c :: before) (is_cased c) s'
  end.

Definition str_title (s : str) : str := title_from [] false s.

Definition no_description : str := py "No description available".

Definition bot_username : str := (0x1F510%N :: py " CyberSec Intel Hub").

(** The dictionary [embed] of lines 136-145; [timestamp] is
    [datetime.utcnow().isoformat()]. *)
Definition make_embed (channel title description url timestamp : str) : embed :=
  {| embed_title := slice_to 256 title;
     embed_description :=
       match description with
       | [] => no_description
       | _ :: _ => slice_to 2048 description
       end;
     embed_url := url;
     embed_color := dict_get colors channel 0x808080;
     embed_footer_text :=
       dict_get emojis channel [0x1F4E1%N] ++ py " "
         ++ str_title (replace_underscores channel);
     embed_timestamp := timestamp |}.

Definition make_data (e : embed) : payload :=
  {| payload_embeds := [e]; payload_username := bot_username |}.

(** The call [requests.post(webhook_url, json=data, timeout=10)]. *)
Definition make_request (webhook_url : str) (data : payload) : request :=
  {| request_url := webhook_url; request_json := data; request_timeout := 10 |}.

Definition tick (b : bot) : bot :=
  {| webhooks := webhooks b; posted_items := posted_items b;
     posts := posts b; clock := S (clock b) |}.

Definition record_post (r : request) (res : post_result) (b : bot) : bot :=
  {| webhooks := webhooks b; posted_items := posted_items b;
     posts := posts b ++ [(r, res)]; clock := clock b |}.

(** [self.posted_items.add(item_id)] *)
Definition add_posted (item_id : str) (b : bot) : bot :=
  {| webhooks := webhooks b; posted_items := {[item_id]} ∪ posted_items b;
     posts := posts b; clock := clock b |}.

(** The result is the returned boolean and the bot afterwards.  The
    function returns on every path: the exceptions of the post are caught
    inside it. *)
Definition send_to_discord (E : env) (channel title description url category : str)
    (b : bot) : bool * bot :=
  match webhooks b !! channel with
  | None | Some [] => (false, b)
  | Some webhook_url =>
      let timestamp := utcnow_isoformat E (clock b) in
      let b1 := tick b in
      let data := make_data (make_embed channel title description url timestamp) in
      let r := make_request webhook_url data in
      let res := requests_post E (length (posts b1)) r in
      let b2 := record_post r res b1 in
      match res with
      | Response status_code _ =>
          if status_code =? 204 then (true, b2) else (false, b2)
      | PostRaised => (false, b2)
      end
  end.

(** ** [check_single_feed] *)

(** [l[:n]] for an integer [n], negative ones counting from the end. *)
Definition py_slice_to {A : Type} (l : list A) (n : Z) : list A :=
  if n <? 0 then firstn (Z.to_nat (Z.of_nat (length l) + n)) l
  else firstn (Z.to_nat n) l.

(** Lines 183-189, the recency check: [true] when the entry is skipped
    as older than 48 hours.  An exception inside the [try] (a timestamp
    that is no valid date, a cutoff before [datetime.min]) is swallowed
    and the entry goes on. *)
Definition too_old (E : env) (e : entry) (b : bot) : bool * bot :=
  match entry_published_parsed e with
  | None => (false, b)
  | Some published_parsed =>
      match datetime_of_struct published_parsed with
      | None => (false, b)
      | Some pub_date =>
          let now := datetime_now E (clock b) in
          let b' := tick b in
          match datetime_sub now (timedelta_hours 48) with
          | None => (false, b')
          | Some cutoff => (pub_date <? cutoff, b')
          end
      end
  end.

(** How one pass through the loop body ends: at its end or at a
    [continue] ([Next]), at the [break], or in an exception. *)
Inductive control := Next | Break | Raised.

(** The body of the [for] loop, lines 176-213, for one entry, with the
    counter [new_items] before and after. *)
Definition loop_body (E : env) (base_category : str) (e : entry)
    (new_items : Z) (b : bot) : control * Z * bot :=
  match entry_title e, entry_link e with
  | Some title, Some link =>
      match generate_item_id title link with
      | None => (Raised, new_items, b)
      | Some item_id =>
          if decide (item_id ∈ posted_items b) then (Next, new_items, b)
          else
            let '(old, b1) := too_old E e b in
            if old then (Next, new_items, b1)
            else
              let summary := default [] (entry_summary e) in
              let target_channel :=
                get_appropriate_channel base_category title summary in
              let '(success, b2) :=
                send_to_discord E target_channel title summary link base_category b1 in
              let '(new_items', b3) :=
                if success then (new_items + 1, add_posted item_id b2)
                else (new_items, b2) in
              if new_items' >=? 2 then (Break, new_items', b3)
              else (Next, new_items', b3)
      end
  | _, _ => (Raised, new_items, b)
  end.

(** The [for] loop over the entries; the result is the counter and the
    bot when the loop is left. *)
Fixpoint feed_loop (E : env) (base_category : str) (entries : list entry)
    (new_items : Z) (b : bot) : Z * bot :=
  match entries with
  | [] => (new_items, b)
  | e :: entries' =>
      match loop_body E base_category e new_items b with
      | (Next, new_items', b') => feed_loop E base_category entries' new_items' b'
      | (Break, new_items', b') | (Raised, new_items', b') => (new_items', b')
      end
  end.

(** The exception of the parser or of an entry is caught by the outer
    [try]; the function returns [None] on every path, so its result here
    is the bot afterwards. *)
Definition check_single_feed (E : env) (feed_url base_category : str)
    (max_items : Z) (b : bot) : bot :=
  match feedparser_parse E feed_url with
  | None => b
  | Some [] => b
  | Some entries => snd (feed_loop E base_category (py_slice_to entries max_items) 0 b)
  end.

(** ** [run] *)

(** The start banner reads the clock ([datetime.now()] in its text);
    then every feed of every category in the order of the table, with the
    default [max_items=5].  The two seconds of sleep between feeds are
    not modelled. *)
Definition run (E : env) (b : bot) : bot :=
  fold_left
    (fun b '(category, feed_urls) =>
       fold_left (fun b feed_url => check_single_feed E feed_url category 5 b)
                 feed_urls b)
    feeds (tick b).

(** ** The scores as the specification words them *)

(** Follows the specification's words, not the source: the number of
    occurrences of [keyword] in [text], that is of the positions of
    [text] at which [keyword] starts.  [keyword_score] above is the one
    of the source. *)
Fixpoint spec_count_occurrences (keyword text : str) : Z :=
  (if startswith keyword text then 1 else 0)
  + match text with
    | [] => 0
    | _ :: text' => spec_count_occurrences keyword text'
    end.

Definition spec_occurrence_score (keywords : list str) (text : str) : Z :=
  py_sum (List.map (fun keyword => spec_count_occurrences keyword text) keywords).

(** ** Vocabulary of the properties *)

(** The keyword occurs in the text when case is ignored the way the
    program ignores it: it occurs in the lowercase form of the text. *)
Definition occurs_ignoring_case (k s : str) : Prop :=
  substring_of k (lower s).

(** The title or the description mentions one of the keywords, in any
    mix of upper and lower case. *)
Definition mentions (keywords : list str) (title description : str) : Prop :=
  exists keyword, In keyword keywords /\
    (occurs_ignoring_case keyword title \/ occurs_ignoring_case keyword description).

(** A character of a hexadecimal digest. *)
Definition is_hex_digit (c : N) : Prop := In c (py "0123456789abcdef").

(** The post was accepted: the transport answered with status 204. *)
Definition delivered (res : post_result) : bool :=
  match res with
  | Response status_code _ => status_code =? 204
  | PostRaised => false
  end.

(** The number of accepted posts so far. *)
Definition deliveries (b : bot) : Z :=
  Z.of_nat (length (List.filter (fun p => delivered (snd p)) (posts b))).

(** The number of identifiers in [posted_items]. *)
Definition seen (b : bot) : Z := Z.of_nat (size (posted_items b)).

(** ** A sample feed *)

(** The inputs of the worked examples: it is 2024-03-10 12:00:00, every
    webhook variable is set, the parser gives the six entries below for
    every feed, and the transport answers the [n]-th post with the status
    [status n]. *)
Definition sample_time (y m d hh mm ss : Z) : struct_time :=
  {| tm_year := y; tm_mon := m; tm_mday := d;
     tm_hour := hh; tm_min := mm; tm_sec := ss;
     tm_wday := 0; tm_yday := 1; tm_isdst := 0 |}.

Definition sample_entry (title link summary : string)
    (published : option struct_time) : entry :=
  {| entry_title := Some (py title); entry_link := Some (py link);
     entry_summary := Some (py summary); entry_published_parsed := published |}.

Definition sample_now : Z := default 0 (datetime 2024 3 10 12 0 0).

Definition sample_entries : list entry :=
  [sample_entry "CTF Writeup: Pwning the Box" "http://a/1" "" None;
   sample_entry "Old news" "http://a/2" "x" (Some (sample_time 2024 3 8 11 59 59));
   sample_entry "Fresh enough" "http://a/3" "x" (Some (sample_time 2024 3 8 12 0 1));
   sample_entry "CTF Writeup: Pwning the Box" "http://a/1" "" None;
   sample_entry "New Zero-Day in OpenSSL" "http://a/4" "" None;
   sample_entry "One more" "http://a/5" "" (Some (sample_time 2024 2 30 0 0 0))].

Definition sample_env (status : nat -> Z) : env :=
  {| getenv := fun variable => Some (py "https://discord.test/" ++ variable);
     feedparser_parse := fun _ => Some sample_entries;
     requests_post := fun n _ => Response (status n) [];
     datetime_now := fun _ => sample_now;
     utcnow_isoformat := fun _ => py "2024-03-10T12:00:00" |}.


(** ** Vocabulary of the further properties *)

(** The categories of the feeds table, in its order. *)
Definition feed_categories : list str := List.map fst feeds.

(** The number of feed addresses of the table. *)
Definition feed_count : Z :=
  fold_right (fun p acc => Z.of_nat (length (snd p)) + acc) 0 feeds.

(** The post went to the webhook that [w] holds for one of [channels]. *)
Definition routed_for (w : gmap str str) (channels : list str)
    (p : request * post_result) : Prop :=
  exists channel, In channel channels /\ w !! channel = Some (request_url (fst p)).

(** The number of posts performed so far, accepted or not. *)
Definition attempts (b : bot) : Z := Z.of_nat (length (posts b)).

(** The entry cannot be identified: reading its title or its link, or
    encoding them, raises. *)
Definition unidentifiable (e : entry) : Prop :=
  match entry_title e, entry_link e with
  | Some title, Some link => generate_item_id title link = None
  | _, _ => True
  end.

(** The channels with an entry in the tables of [send_to_discord]. *)
Definition styled_channels : list str := List.map fst colors.

(** The sample collaborators with the clock at [now]. *)
Definition sample_env_at (now : Z) : env :=
  {| getenv := getenv (sample_env (fun _ => 204));
     feedparser_parse := feedparser_parse (sample_env (fun _ => 204));
     requests_post := requests_post (sample_env (fun _ => 204));
     datetime_now := fun _ => now;
     utcnow_isoformat := utcnow_isoformat (sample_env (fun _ => 204)) |}.

(** Every entry of the list can be identified and its identifier is in
    the posted items of [b]. *)
Definition all_posted (b : bot) (entries : list entry) : Prop :=
  Forall (fun e =>
            exists title link item_id,
              entry_title e = Some title /\ entry_link e = Some link /\
              generate_item_id title link = Some item_id /\
              item_id ∈ posted_items b) entries.

(** The sample collaborators with a feed of one entry, the first of the
    sample entries. *)
Definition sample_env_single : env :=
  {| getenv := getenv (sample_env (fun _ => 204));
     feedparser_parse := fun _ =>
       Some [sample_entry "CTF Writeup: Pwning the Box" "http://a/1" "" None];
     requests_post := requests_post (sample_env (fun _ => 204));
     datetime_now := fun _ => sample_now;
     utcnow_isoformat := utcnow_isoformat (sample_env (fun _ => 204)) |}.

(** No code point of the run is mapped to [x]. *)
Definition run_avoids (x : Z) (r : Z * Z * Z * Z) : bool :=
  let '(lo, hi, step, delta) := r in
  negb ((lo + delta <=? x) && (x <=? hi + delta)).

(** The image of the exception does not hold [x]. *)
Definition image_avoids (x : Z) (p : Z * list Z) : bool :=
  forallb (fun y => negb (y =? x)) (snd p).

(** * Properties *)

(** ** The digest and the calendar against known values *)

Example md5_empty :
  generate_item_id [] [] = Some (py "d41d8cd98f00b204e9800998ecf8427e").
Proof. vm_compute. reflexivity. Qed.

Example md5_abc :
  generate_item_id (py "a") (py "bc") = Some (py "900150983cd24fb0d6963f7d28e17f72").
Proof. vm_compute. reflexivity. Qed.

Example md5_message_digest :
  generate_item_id (py "message ") (py "digest")
  = Some (py "f96b697d7cb7938d525a2f31aaf161d0").
Proof. vm_compute. reflexivity. Qed.

Example md5_two_blocks :
  generate_item_id (repeat 120%N 60) (repeat 120%N 59)
  = Some (py "ab347a5f68c8a443cfcddc633f12c24f").
Proof. vm_compute. reflexivity. Qed.

Example md5_length_56 :
  generate_item_id (repeat 120%N 56) [] = Some (py "668a72d5ba17f08e62dabcafad6db14b").
Proof. vm_compute. reflexivity. Qed.

Example md5_of_utf8 :
  generate_item_id [233%N; 0x20AC%N] [0x1F600%N]
  = Some (py "3b07a39fef0ac5d7ef21575e7315a482").
Proof. vm_compute. reflexivity. Qed.

Example ordinal_2024_02_29 : ymd2ord 2024 2 29 = 738945.
Proof. reflexivity. Qed.

Example ordinal_max : ymd2ord 9999 12 31 = 3652059.
Proof. reflexivity. Qed.

Example second_60_rejected : datetime 2024 1 1 0 0 60 = None.
Proof. reflexivity. Qed.

Example title_web_security :
  str_title (replace_underscores (py "web_security")) = py "Web Security".
Proof. vm_compute. reflexivity. Qed.

(** [str.lower()] and [str.title()] on texts with the capital sigma, the
    dotted capital I, the Kelvin sign, ligatures and letters beyond
    Latin-1, against the values of the interpreter. *)

Example lower_known_1 :
  lower [0x39F; 0x394; 0x39F; 0x3A3; 0x20; 0x3A3; 0x391; 0x3A3]%N
  = [0x3BF; 0x3B4; 0x3BF; 0x3C2; 0x20; 0x3C3; 0x3B1; 0x3C2]%N.
Proof. vm_compute. reflexivity. Qed.

Example lower_known_2 :
  lower [0x130; 0x73; 0x74; 0x61; 0x6E; 0x62; 0x75; 0x6C; 0x20; 0x391; 0x3A3; 0x2E; 0x392]%N
  = [0x69; 0x307; 0x73; 0x74; 0x61; 0x6E; 0x62; 0x75; 0x6C; 0x20; 0x3B1; 0x3C3; 0x2E; 0x3B2]%N.
Proof. vm_compute. reflexivity. Qed.

Example lower_known_3 :
  lower [0x57; 0x61; 0x6C; 0x212A; 0x74; 0x68; 0x72; 0x6F; 0x75; 0x67; 0x68]%N
  = [0x77; 0x61; 0x6C; 0x6B; 0x74; 0x68; 0x72; 0x6F; 0x75; 0x67; 0x68]%N.
Proof. vm_compute. reflexivity. Qed.

Example lower_known_4 :
  lower [0x61; 0xAD; 0x3A3; 0x27; 0x20; 0x3A3]%N
  = [0x61; 0xAD; 0x3C2; 0x27; 0x20; 0x3C3]%N.
Proof. vm_compute. reflexivity. Qed.

Example lower_known_5 :
  lower [0xC0; 0xC9; 0xCE; 0x20; 0x1C4; 0x20; 0x3A9; 0x20; 0x2167; 0x20; 0x10400]%N
  = [0xE0; 0xE9; 0xEE; 0x20; 0x1C6; 0x20; 0x3C9; 0x20; 0x2177; 0x20; 0x10428]%N.
Proof. vm_compute. reflexivity. Qed.

Example title_known_1 :
  str_title [0x6B; 0x72; 0x79; 0x70; 0x74; 0x6F; 0x67; 0x72; 0x61; 0x66; 0x69; 0x61; 0x20; 0x142; 0xF3; 0x64; 0x17A]%N
  = [0x4B; 0x72; 0x79; 0x70; 0x74; 0x6F; 0x67; 0x72; 0x61; 0x66; 0x69; 0x61; 0x20; 0x141; 0xF3; 0x64; 0x17A]%N.
Proof. vm_compute. reflexivity. Qed.

Example title_known_2 :
  str_title [0x73; 0x74; 0x72; 0x61; 0xDF; 0x65; 0x20; 0x1C6; 0x61; 0x62; 0x63; 0x20; 0xFB01; 0x73; 0x68]%N
  = [0x53; 0x74; 0x72; 0x61; 0xDF; 0x65; 0x20; 0x1C5; 0x61; 0x62; 0x63; 0x20; 0x46; 0x69; 0x73; 0x68]%N.
Proof. vm_compute. reflexivity. Qed.

Example title_known_3 :
  str_title [0x74; 0x68; 0x65; 0x79; 0x27; 0x72; 0x65; 0x20; 0x6F; 0x27; 0x3A3; 0x391; 0x3A3; 0x20; 0x149]%N
  = [0x54; 0x68; 0x65; 0x79; 0x27; 0x52; 0x65; 0x20; 0x4F; 0x27; 0x3A3; 0x3B1; 0x3C2; 0x20; 0x2BC; 0x4E]%N.
Proof. vm_compute. reflexivity. Qed.

Example title_known_4 :
  str_title [0x77; 0x65; 0x62; 0x20; 0x73; 0x65; 0x63; 0x75; 0x72; 0x69; 0x74; 0x79]%N
  = [0x57; 0x65; 0x62; 0x20; 0x53; 0x65; 0x63; 0x75; 0x72; 0x69; 0x74; 0x79]%N.
Proof. vm_compute. reflexivity. Qed.

Example footer_of_a_channel_beyond_latin_1 :
  str_title (replace_underscores [0x6B; 0x72; 0x79; 0x70; 0x74; 0x6F; 0x67; 0x72; 0x61; 0x66; 0x69; 0x61; 0x5F; 0x142; 0xF3; 0x64; 0x17A]%N)
  = [0x4B; 0x72; 0x79; 0x70; 0x74; 0x6F; 0x67; 0x72; 0x61; 0x66; 0x69; 0x61; 0x20; 0x141; 0xF3; 0x64; 0x17A]%N.
Proof. vm_compute. reflexivity. Qed.

(** ** Substrings *)

Section Substrings.

Implicit Types k s w : str.

Lemma startswith_spec k s :
  startswith k s = true <-> exists post, s = k ++ post.
Proof.
  revert s. induction k as [|a k IH]; intros [|b s]; simpl.
  - split; [exists []; reflexivity | reflexivity].
  - split; [exists (b :: s); reflexivity | reflexivity].
  - split; [discriminate | intros [post H]; discriminate].
  - rewrite andb_true_iff, N.eqb_eq, IH. split.
    + intros [-> [post ->]]. exists post. reflexivity.
    + intros [post H]. injection H as -> ->. split; [reflexivity | eauto].
Qed.

Lemma contains_spec k s : contains k s = true <-> substring_of k s.
Proof.
  unfold substring_of. induction s as [|a s IH]; simpl.
  - rewrite orb_false_r, startswith_spec. split.
    + intros [post H]. exists [], post. exact H.
    + intros [pre [post H]]. symmetry in H.
      apply app_eq_nil in H as [-> H]. exists post. symmetry. exact H.
  - rewrite orb_true_iff, startswith_spec, IH. split.
    + intros [[post H] | [pre [post H]]].
      * exists [], post. exact H.
      * exists (a :: pre), post. simpl. f_equal. exact H.
    + intros [[|c pre] [post H]].
      * left. exists post. exact H.
      * right. simpl in H. injection H as _ H. exists pre, post. exact H.
Qed.

Lemma contains_false k s : contains k s = false <-> ~ substring_of k s.
Proof.
  rewrite <- contains_spec. destruct (contains k s); split; intro H; try reflexivity;
    try discriminate; exfalso; apply H; reflexivity.
Qed.

Lemma substring_of_lower k s :
  substring_of k (lower s) <-> occurs_ignoring_case k s.
Proof. unfold occurs_ignoring_case. reflexivity. Qed.

(** A text without the capital sigma U+03A3 and without U+0130 is lowered
    code point by code point. *)
Lemma lower_from_plain before s :
  Forall (fun c => c <> 0x3A3%N /\ c <> 0x130%N) s ->
  lower_from before s = List.map to_lower s.
Proof.
  intros H. revert before. induction H as [|c s [Hsigma Hdot] _ IH]; intros before; simpl.
  - reflexivity.
  - unfold lower_at, to_lower_full.
    destruct (N.eqb_spec c 0x3A3); [contradiction|].
    destruct (N.eqb_spec c 0x130); [contradiction|].
    simpl. rewrite IH. reflexivity.
Qed.

(** In such a text the keyword occurs, case ignored, exactly when some
    stretch of the text has the keyword as its lowercase form. *)
Lemma occurs_ignoring_case_stretch k s :
  Forall (fun c => c <> 0x3A3%N /\ c <> 0x130%N) s ->
  occurs_ignoring_case k s <->
  exists pre w post, s = pre ++ w ++ post /\ lower w = k.
Proof.
  intros Hplain. unfold occurs_ignoring_case, substring_of, lower.
  rewrite (lower_from_plain [] s Hplain). split.
  - intros [pre [post H]].
    apply map_eq_app in H as [pre' [rest [-> [_ H]]]].
    apply map_eq_app in H as [w [post' [-> [H _]]]].
    exists pre', w, post'. split; [reflexivity|].
    apply Forall_app in Hplain as [_ Hplain].
    apply Forall_app in Hplain as [Hw _].
    rewrite (lower_from_plain [] w Hw). exact H.
  - intros [pre [w [post [-> <-]]]].
    apply Forall_app in Hplain as [_ Hplain].
    apply Forall_app in Hplain as [Hw _].
    rewrite (lower_from_plain [] w Hw).
    exists (List.map to_lower pre), (List.map to_lower post).
    rewrite !List.map_app. reflexivity.
Qed.

End Substrings.

(** ** The channel router *)

Lemma any_keyword_spec keywords title description :
  any_keyword keywords title description = true <-> mentions keywords title description.
Proof.
  unfold any_keyword, mentions. rewrite existsb_exists.
  split; intros [k [Hin H]]; exists k; split; try exact Hin.
  - apply orb_true_iff in H. rewrite !contains_spec, !substring_of_lower in H. exact H.
  - apply orb_true_iff. rewrite !contains_spec, !substring_of_lower. exact H.
Qed.

Lemma any_keyword_false keywords title description :
  any_keyword keywords title description = false <-> ~ mentions keywords title description.
Proof.
  rewrite <- any_keyword_spec.
  destruct (any_keyword keywords title description); split; intro H;
    try reflexivity; try discriminate; exfalso; apply H; reflexivity.
Qed.

(** The keywords of the router are in lower case, so looking for them in
    the lowered text is looking for them whatever the case. *)
Lemma router_keywords_are_lowercase :
  Forall (fun keyword => lower keyword = keyword) (writeup_keywords ++ ctf_keywords).
Proof.
  apply List.Forall_forall. intros keyword Hin. vm_compute in Hin.
  decompose [or] Hin; try contradiction; subst keyword; vm_compute; reflexivity.
Qed.

(** The Kelvin sign U+212A is lowered to [k], so a title that spells
    "walkthrough" with it is a writeup. *)
Example router_lowers_the_kelvin_sign (category : str) :
  get_appropriate_channel category
    (py "Wal" ++ [0x212A%N] ++ py "through of the box") [] = py "writeups".
Proof. vm_compute. reflexivity. Qed.

(** C4.  The router tries its rules in order and the first match wins: a
    writeup keyword ("writeup", "write-up", "walkthrough", "solution") in
    the title or the description, in any case, gives "writeups"; else a
    CTF keyword ("ctf", "capture the flag", "competition", "challenge")
    gives "ctf"; else the source category comes back unchanged.  A title
    with keywords of both kinds, as "CTF Writeup: Pwning the Box", goes to
    "writeups". *)
Theorem get_appropriate_channel_first_match (category title description : str) :
  writeup_keywords = List.map py ["writeup"; "write-up"; "walkthrough"; "solution"]%string /\
  ctf_keywords = List.map py ["ctf"; "capture the flag"; "competition"; "challenge"]%string /\
  (mentions writeup_keywords title description ->
   get_appropriate_channel category title description = py "writeups") /\
  (~ mentions writeup_keywords title description ->
   mentions ctf_keywords title description ->
   get_appropriate_channel category title description = py "ctf") /\
  (~ mentions writeup_keywords title description ->
   ~ mentions ctf_keywords title description ->
   get_appropriate_channel category title description = category) /\
  (mentions writeup_keywords title description ->
   mentions ctf_keywords title description ->
   get_appropriate_channel category title description = py "writeups") /\
  get_appropriate_channel category (py "CTF Writeup: Pwning the Box") description
  = py "writeups".
Proof.
  unfold get_appropriate_channel.
  split; [reflexivity|]. split; [reflexivity|].
  split; [|split; [|split; [|split]]].
  - intros H. apply any_keyword_spec in H. rewrite H. reflexivity.
  - intros Hw Hc. apply any_keyword_false in Hw. apply any_keyword_spec in Hc.
    rewrite Hw, Hc. reflexivity.
  - intros Hw Hc. apply any_keyword_false in Hw, Hc. rewrite Hw, Hc. reflexivity.
  - intros H _. apply any_keyword_spec in H. rewrite H. reflexivity.
  - assert (H : mentions writeup_keywords (py "CTF Writeup: Pwning the Box") description).
    { exists (py "writeup"). split; [left; reflexivity|]. left.
      exists (py "ctf "), (py ": pwning the box"). vm_compute. reflexivity. }
    apply any_keyword_spec in H. rewrite H. reflexivity.
Qed.

(** The three routes on the titles of the specification. *)
Lemma get_appropriate_channel_first_match_witness :
  get_appropriate_channel (py "cryptography") (py "CTF Writeup: Pwning the Box") []
    = py "writeups" /\
  get_appropriate_channel (py "cryptography") (py "Upcoming CTF Challenge This Weekend") []
    = py "ctf" /\
  get_appropriate_channel (py "cryptography") (py "New Zero-Day in OpenSSL") []
    = py "cryptography".
Proof.
  split; [|split].
  - apply (get_appropriate_channel_first_match
             (py "cryptography") (py "CTF Writeup: Pwning the Box") []).
  - apply (get_appropriate_channel_first_match
             (py "cryptography") (py "Upcoming CTF Challenge This Weekend") []).
    + apply any_keyword_false. vm_compute. reflexivity.
    + apply any_keyword_spec. vm_compute. reflexivity.
  - apply (get_appropriate_channel_first_match
             (py "cryptography") (py "New Zero-Day in OpenSSL") []).
    + apply any_keyword_false. vm_compute. reflexivity.
    + apply any_keyword_false. vm_compute. reflexivity.
Defined.

(** ** The difficulty classifier *)

Lemma fold_left_add_shift (l : list Z) (a : Z) :
  fold_left Z.add l a = a + py_sum l.
Proof.
  unfold py_sum. revert a. induction l as [|x l IH]; intros a; simpl.
  - lia.
  - rewrite (IH (a + x)), (IH (0 + x)). lia.
Qed.

Lemma py_sum_cons (x : Z) (l : list Z) : py_sum (x :: l) = x + py_sum l.
Proof. unfold py_sum at 1. simpl. apply fold_left_add_shift. Qed.

Lemma py_sum_nonneg (l : list Z) : Forall (fun x => 0 <= x) l -> 0 <= py_sum l.
Proof.
  induction 1 as [|x l Hx _ IH]; [reflexivity|]. rewrite py_sum_cons. lia.
Qed.

Lemma py_sum_ones {A : Type} (l : list A) :
  py_sum (List.map (fun _ => 1) l) = Z.of_nat (length l).
Proof.
  induction l as [|x l IH]; [reflexivity|].
  cbn [List.map length]. rewrite py_sum_cons, IH. lia.
Qed.

Lemma keyword_score_length (keywords : list str) (text : str) :
  keyword_score keywords text
  = Z.of_nat (length (List.filter (fun keyword => contains keyword text) keywords)).
Proof. unfold keyword_score. apply py_sum_ones. Qed.

Lemma keyword_score_bounds (keywords : list str) (text : str) :
  0 <= keyword_score keywords text <= Z.of_nat (length keywords).
Proof.
  rewrite keyword_score_length.
  pose proof (filter_length_le (fun keyword => contains keyword text) keywords). lia.
Qed.

(** C5.  The classifier is a function of the title and the description
    alone and gives a label on every input: "beginner" when the beginner
    score is strictly above the intermediate score, else "intermediate"
    when the intermediate score is strictly positive, else "general"; the
    three labels are different strings. *)
Theorem classify_difficulty_decision (title description : str) :
  let beginner := beginner_score title description in
  let intermediate := intermediate_score title description in
  (beginner > intermediate ->
   classify_difficulty title description = py "beginner") /\
  (beginner <= intermediate -> intermediate > 0 ->
   classify_difficulty title description = py "intermediate") /\
  (beginner <= intermediate -> intermediate <= 0 ->
   classify_difficulty title description = py "general") /\
  In (classify_difficulty title description)
     [py "beginner"; py "intermediate"; py "general"] /\
  List.NoDup [py "beginner"; py "intermediate"; py "general"].
Proof.
  cbv zeta. unfold classify_difficulty.
  destruct (Z.gtb_spec (beginner_score title description)
                       (intermediate_score title description)) as [Hb|Hb];
  destruct (Z.gtb_spec (intermediate_score title description) 0) as [Hi|Hi];
  (split; [intros; try reflexivity; lia|]);
  (split; [intros; try reflexivity; lia|]);
  (split; [intros; try reflexivity; lia|]);
  (split; [simpl; auto|]);
  repeat (apply List.NoDup_cons; [intros H; vm_compute in H; intuition discriminate|]);
  apply List.NoDup_nil.
Qed.

(** The three texts of the specification. *)
Lemma classify_difficulty_decision_witness :
  classify_difficulty (py "Introduction to Buffer Overflows") [] = py "beginner" /\
  classify_difficulty (py "Advanced Exploitation Techniques: Deep Dive") []
    = py "intermediate" /\
  classify_difficulty (py "New Zero-Day in OpenSSL") [] = py "general".
Proof.
  split; [|split].
  - apply (classify_difficulty_decision (py "Introduction to Buffer Overflows") []).
    vm_compute. reflexivity.
  - apply (classify_difficulty_decision
             (py "Advanced Exploitation Techniques: Deep Dive") []);
      vm_compute; [discriminate | reflexivity].
  - apply (classify_difficulty_decision (py "New Zero-Day in OpenSSL") []);
      vm_compute; discriminate.
Defined.

(** C6, as the claim has it, fails.  The text "Advanced Exploitation
    Techniques: Deep Dive" has three intermediate hits ("advanced", "deep
    dive", "exploitation"), not two; and in "intro intro" the keyword
    "intro" occurs twice while the beginner score is 1. *)
Lemma scores_are_not_occurrence_counts :
  beginner_score (py "Advanced Exploitation Techniques: Deep Dive") [] = 0 /\
  intermediate_score (py "Advanced Exploitation Techniques: Deep Dive") [] <> 2 /\
  spec_occurrence_score beginner_keywords (classify_text (py "intro intro") []) = 2 /\
  beginner_score (py "intro intro") []
  <> spec_occurrence_score beginner_keywords (classify_text (py "intro intro") []).
Proof.
  split; [vm_compute; reflexivity|].
  split; [vm_compute; discriminate|].
  split; [vm_compute; reflexivity|].
  vm_compute; discriminate.
Qed.

(** C6, amended.  Each score is the number of keywords of its list that
    occur, in any case and at least once, in the text made of the title,
    a space and the description: a keyword counts once however often it
    occurs.  "Advanced Exploitation Techniques: Deep Dive" has 0 beginner
    and 3 intermediate hits. *)
Theorem scores_count_matching_keywords (title description : str) :
  let text := title ++ py " " ++ description in
  let hits keywords := List.filter (fun keyword => contains keyword (lower text)) keywords in
  beginner_score title description = Z.of_nat (length (hits beginner_keywords)) /\
  intermediate_score title description = Z.of_nat (length (hits intermediate_keywords)) /\
  (forall keywords keyword,
     In keyword (hits keywords) <->
     In keyword keywords /\ occurs_ignoring_case keyword text) /\
  0 <= beginner_score title description <= 10 /\
  0 <= intermediate_score title description <= 8 /\
  beginner_score (py "intro intro") [] = 1 /\
  beginner_score (py "Advanced Exploitation Techniques: Deep Dive") [] = 0 /\
  intermediate_score (py "Advanced Exploitation Techniques: Deep Dive") [] = 3.
Proof.
  cbv zeta. unfold beginner_score, intermediate_score, classify_text.
  split; [apply keyword_score_length|].
  split; [apply keyword_score_length|].
  split.
  { intros keywords keyword.
    rewrite filter_In, contains_spec, substring_of_lower. reflexivity. }
  split; [apply (keyword_score_bounds beginner_keywords)|].
  split; [apply (keyword_score_bounds intermediate_keywords)|].
  repeat split; vm_compute; reflexivity.
Qed.

(** ** The item identifier *)

Lemma hex_digit_is_hex (d : Z) : 0 <= d < 16 -> is_hex_digit (MD5.hex_digit d).
Proof.
  intros Hd. unfold is_hex_digit.
  assert (H : In d [0; 1; 2; 3; 4; 5; 6; 7; 8; 9; 10; 11; 12; 13; 14; 15]).
  { simpl. lia. }
  simpl in H. decompose [or] H; subst; try contradiction; vm_compute; tauto.
Qed.

Lemma le_bytes_range (n : nat) (x : Z) :
  Forall (fun b => 0 <= b < 256) (MD5.le_bytes n x).
Proof.
  unfold MD5.le_bytes. apply List.Forall_forall. intros b Hb.
  apply in_map_iff in Hb as [i [<- _]].
  change 0xFF with (Z.ones 8). rewrite Z.land_ones by lia.
  apply Z.mod_pos_bound. reflexivity.
Qed.

Lemma digest_bytes_range (h : MD5.digest) :
  Forall (fun b => 0 <= b < 256) (MD5.digest_bytes h).
Proof.
  unfold MD5.digest_bytes. repeat apply Forall_app_2; apply le_bytes_range.
Qed.

Lemma hexdigest_length (h : MD5.digest) : length (MD5.hexdigest h) = 32%nat.
Proof. reflexivity. Qed.

Lemma hexdigest_is_hex (h : MD5.digest) : Forall is_hex_digit (MD5.hexdigest h).
Proof.
  unfold MD5.hexdigest.
  pose proof (digest_bytes_range h) as H.
  induction H as [|b bs Hb _ IH]; simpl; [constructor|].
  constructor; [|constructor; [|exact IH]]; apply hex_digit_is_hex.
  - split; [apply Z.div_pos; lia | apply Z.div_lt_upper_bound; lia].
  - apply Z.mod_pos_bound. reflexivity.
Qed.

Lemma utf8_encode_none (s : str) :
  Utf8.encode s = None <-> Exists (fun c => Utf8.encode_cp c = None) s.
Proof.
  induction s as [|c s IH]; simpl.
  - split; [discriminate | intros H; inversion H].
  - rewrite Exists_cons, <- IH.
    destruct (Utf8.encode_cp c), (Utf8.encode s); split; intros H;
      try discriminate; try reflexivity; auto; destruct H; discriminate.
Qed.

(** C7, as the claim has it, fails: two different pairs with the same
    concatenation of title and link have the same identifier. *)
Lemma generate_item_id_collision :
  (py "ab", py "c") <> (py "a", py "bc") /\
  generate_item_id (py "ab") (py "c") = generate_item_id (py "a") (py "bc") /\
  generate_item_id (py "ab") (py "c") = Some (py "900150983cd24fb0d6963f7d28e17f72").
Proof.
  split; [vm_compute; discriminate|].
  split; vm_compute; reflexivity.
Qed.

(** C7, amended.  The identifier is computed from the concatenation of
    title and link alone: identical pairs, and any two pairs with the same
    concatenation, have the same identifier.  It is a string of 32
    hexadecimal digits, and it exists unless the text has a code point
    that UTF-8 cannot encode. *)
Theorem generate_item_id_fingerprint (title link title' link' : str) :
  (title ++ link = title' ++ link' ->
   generate_item_id title link = generate_item_id title' link') /\
  (forall item_id, generate_item_id title link = Some item_id ->
     length item_id = 32%nat /\ Forall is_hex_digit item_id) /\
  (generate_item_id title link = None <->
   Exists (fun c => Utf8.encode_cp c = None) (title ++ link)).
Proof.
  unfold generate_item_id. split; [|split].
  - intros ->. reflexivity.
  - intros item_id H. destruct (Utf8.encode (title ++ link)); [|discriminate].
    injection H as <-. split; [apply hexdigest_length | apply hexdigest_is_hex].
  - rewrite <- utf8_encode_none.
    destruct (Utf8.encode (title ++ link)); split; intros H;
      try discriminate; reflexivity.
Qed.

Lemma generate_item_id_fingerprint_witness :
  generate_item_id (py "ab") (py "c") = generate_item_id (py "a") (py "bc") /\
  length (py "900150983cd24fb0d6963f7d28e17f72") = 32%nat.
Proof.
  split.
  - apply (generate_item_id_fingerprint (py "ab") (py "c") (py "a") (py "bc")).
    reflexivity.
  - apply (generate_item_id_fingerprint (py "ab") (py "c") (py "a") (py "bc")).
    vm_compute. reflexivity.
Defined.

(** ** Dates *)

Lemma days_before_year_nonneg (y : Z) : 1 <= y -> 0 <= days_before_year y.
Proof.
  intros Hy. unfold days_before_year. cbv zeta.
  Z.div_mod_to_equations. lia.
Qed.

Lemma days_in_month_nonneg (y m : Z) : 0 <= days_in_month y m.
Proof.
  unfold days_in_month. destruct ((m =? 2) && is_leap y); [lia|].
  pose proof (nth_in_or_default (Z.to_nat (m - 1))
                [31; 28; 31; 30; 31; 30; 31; 31; 30; 31; 30; 31] 0) as H.
  set (v := nth _ _ _) in *. destruct H as [H|H].
  - simpl in H. lia.
  - lia.
Qed.

Lemma days_before_month_nonneg (y m : Z) : 0 <= days_before_month y m.
Proof.
  unfold days_before_month. apply py_sum_nonneg.
  apply List.Forall_forall. intros x Hx. apply in_map_iff in Hx as [k [<- _]].
  apply days_in_month_nonneg.
Qed.

Lemma datetime_nonneg (y m d hh mm ss t : Z) :
  datetime y m d hh mm ss = Some t -> 0 <= t.
Proof.
  unfold datetime.
  destruct (_ && _) eqn:Hvalid; [|discriminate].
  intros H. injection H as <-.
  repeat (apply andb_true_iff in Hvalid as [Hvalid ?]).
  pose proof (days_before_year_nonneg y).
  pose proof (days_before_month_nonneg y m).
  unfold ymd2ord. lia.
Qed.

(** ** The notifier *)

Section Notifier.

Context (E : env).

Lemma deliveries_record_post (r : request) (res : post_result) (b : bot) :
  deliveries (record_post r res b)
  = deliveries b + (if delivered res then 1 else 0).
Proof.
  unfold deliveries, record_post. simpl.
  rewrite List.filter_app, length_app. simpl.
  destruct (delivered res); simpl; lia.
Qed.

(** What a call of [send_to_discord] does: without a webhook for the
    channel nothing; with one, it reads the clock, performs one post and
    returns whether the post was accepted. *)
Lemma send_to_discord_cases (channel title description url category : str) (b : bot) :
  (match webhooks b !! channel with None | Some [] => True | Some _ => False end /\
   send_to_discord E channel title description url category b = (false, b))
  \/
  (exists webhook_url,
     webhooks b !! channel = Some webhook_url /\ webhook_url <> [] /\
     let r := make_request webhook_url
                (make_data (make_embed channel title description url
                              (utcnow_isoformat E (clock b)))) in
     let res := requests_post E (length (posts b)) r in
     send_to_discord E channel title description url category b
     = (delivered res, record_post r res (tick b))).
Proof.
  unfold send_to_discord.
  destruct (webhooks b !! channel) as [[|c webhook_url]|] eqn:Hw.
  - left. split; [exact I | reflexivity].
  - right. exists (c :: webhook_url). split; [reflexivity|]. split; [discriminate|].
    cbv zeta. simpl posts.
    destruct (requests_post E _ _) as [status_code text|]; simpl; [|reflexivity].
    destruct (status_code =? 204); reflexivity.
  - left. split; [exact I | reflexivity].
Qed.

Lemma send_to_discord_frame (channel title description url category : str) (b : bot) :
  let r := send_to_discord E channel title description url category b in
  webhooks (snd r) = webhooks b /\
  posted_items (snd r) = posted_items b /\
  (exists new_posts, posts (snd r) = posts b ++ new_posts) /\
  deliveries (snd r) = deliveries b + (if fst r then 1 else 0).
Proof.
  cbv zeta.
  destruct (send_to_discord_cases channel title description url category b)
    as [[_ ->] | [webhook_url [_ [_ ->]]]]; simpl.
  - repeat split; try reflexivity; [exists []; symmetry; apply app_nil_r | lia].
  - repeat split; try reflexivity; [eexists; reflexivity|].
    apply (deliveries_record_post _ _ (tick b)).
Qed.

End Notifier.

(** ** The feed processor *)

Section FeedProcessor.

Context (E : env) (base_category : str).

Lemma too_old_frame (e : entry) (b : bot) :
  snd (too_old E e b) = b \/ snd (too_old E e b) = tick b.
Proof.
  unfold too_old.
  destruct (entry_published_parsed e) as [t|]; [|left; reflexivity].
  destruct (datetime_of_struct t); [|left; reflexivity].
  destruct (datetime_sub _ _); right; reflexivity.
Qed.

Lemma too_old_fields (e : entry) (b : bot) :
  webhooks (snd (too_old E e b)) = webhooks b /\
  posted_items (snd (too_old E e b)) = posted_items b /\
  posts (snd (too_old E e b)) = posts b.
Proof. destruct (too_old_frame e b) as [-> | ->]; repeat split. Qed.

Lemma size_add_fresh (item_id : str) (X : gset str) :
  item_id ∉ X -> Z.of_nat (size ({[item_id]} ∪ X)) = Z.of_nat (size X) + 1.
Proof.
  intros Hnew. rewrite size_union by (apply disjoint_singleton_l; exact Hnew).
  rewrite size_singleton. lia.
Qed.

(** One pass through the loop body either leaves the counter, the set of
    posted items and the number of accepted posts as they are, or adds
    one to the counter, one fresh identifier to the set and one accepted
    post to the record. *)
Lemma loop_body_effect (e : entry) (n : Z) (b : bot) (c : control) (n' : Z) (b' : bot) :
  loop_body E base_category e n b = (c, n', b') ->
  webhooks b' = webhooks b /\
  (exists new_posts, posts b' = posts b ++ new_posts) /\
  ((n' = n /\ posted_items b' = posted_items b /\ deliveries b' = deliveries b) \/
   (n' = n + 1 /\ deliveries b' = deliveries b + 1 /\
    exists item_id, (item_id ∉ posted_items b) /\
                    posted_items b' = {[item_id]} ∪ posted_items b)) /\
  (c = Next -> n < 2 -> n' < 2).
Proof.
  assert (Hsame : forall c0, (c0, n, b) = (c, n', b') ->
    webhooks b' = webhooks b /\
    (exists new_posts, posts b' = posts b ++ new_posts) /\
    ((n' = n /\ posted_items b' = posted_items b /\ deliveries b' = deliveries b) \/
     (n' = n + 1 /\ deliveries b' = deliveries b + 1 /\
      exists item_id, (item_id ∉ posted_items b) /\
                      posted_items b' = {[item_id]} ∪ posted_items b)) /\
    (c = Next -> n < 2 -> n' < 2)).
  { intros c0 H. injection H as <- <- <-.
    split; [reflexivity|]. split; [exists []; symmetry; apply app_nil_r|].
    split; [left; repeat split | intros _ H; exact H]. }
  unfold loop_body.
  destruct (entry_title e) as [title|]; [|apply Hsame].
  destruct (entry_link e) as [link|]; [|apply Hsame].
  destruct (generate_item_id title link) as [item_id|]; [|apply Hsame].
  destruct (decide (item_id ∈ posted_items b)) as [Hseen|Hnew]; [apply Hsame|].
  clear Hsame.
  destruct (too_old_fields e b) as (Hw1 & Hi1 & Hp1).
  destruct (too_old E e b) as [old b1]. simpl in Hw1, Hi1, Hp1.
  destruct old.
  { intros H. injection H as <- <- <-.
    split; [exact Hw1|]. split; [exists []; rewrite Hp1, app_nil_r; reflexivity|].
    split; [|intros _ H; exact H].
    left. split; [reflexivity|]. split; [exact Hi1|].
    unfold deliveries. rewrite Hp1. reflexivity. }
  pose proof (send_to_discord_frame E
                (get_appropriate_channel base_category title (default [] (entry_summary e)))
                title (default [] (entry_summary e)) link base_category b1)
    as (Hw2 & Hi2 & [new_posts Hp2] & Hd2).
  destruct (send_to_discord E _ title _ link base_category b1) as [success b2].
  simpl in Hw2, Hi2, Hp2, Hd2.
  assert (Hd1 : deliveries b1 = deliveries b).
  { unfold deliveries. rewrite Hp1. reflexivity. }
  destruct success.
  - destruct (Z.geb_spec (n + 1) 2) as [Hge|Hlt]; intros H; injection H as <- <- <-;
      (split; [simpl; congruence|]);
      (split; [exists new_posts; simpl; congruence|]);
      (split; [|intros; try discriminate; lia]);
      right; (split; [reflexivity|]);
      (split; [change (deliveries (add_posted item_id b2)) with (deliveries b2); lia|]);
      exists item_id; (split; [exact Hnew|]); simpl; congruence.
  - destruct (Z.geb_spec n 2) as [Hge|Hlt]; intros H; injection H as <- <- <-;
      (split; [congruence|]);
      (split; [exists new_posts; congruence|]);
      (split; [|intros; try discriminate; lia]);
      left; (split; [reflexivity|]); (split; [congruence | lia]).
Qed.

(** The loop kept running from a counter below 2: the counter ends at 2
    at most; it grew by the number of accepted posts, and by the number
    of identifiers that entered the set of posted items. *)
Lemma feed_loop_effect (entries : list entry) (n : Z) (b : bot) (n' : Z) (b' : bot) :
  feed_loop E base_category entries n b = (n', b') ->
  n < 2 ->
  n <= n' <= 2 /\
  webhooks b' = webhooks b /\
  (exists new_posts, posts b' = posts b ++ new_posts) /\
  deliveries b' = deliveries b + (n' - n) /\
  seen b' = seen b + (n' - n) /\
  posted_items b ⊆ posted_items b'.
Proof.
  revert n b. induction entries as [|e entries IH]; intros n b H Hn; simpl in H.
  - injection H as <- <-. repeat split; try lia; try reflexivity.
    exists []. symmetry. apply app_nil_r.
  - destruct (loop_body E base_category e n b) as [[c n1] b1] eqn:Hbody.
    apply loop_body_effect in Hbody as (Hw & [new1 Hp] & Hcases & Hnext).
    assert (Hstep : n <= n1 <= 2 /\ deliveries b1 = deliveries b + (n1 - n) /\
                    seen b1 = seen b + (n1 - n) /\ posted_items b ⊆ posted_items b1).
    { destruct Hcases as [(-> & Hi & Hd) | (-> & Hd & item_id & Hnew & Hi)].
      - unfold seen. rewrite Hi. repeat split; try lia. reflexivity.
      - unfold seen. rewrite Hi, size_add_fresh by exact Hnew.
        repeat split; try lia. apply union_subseteq_r. }
    destruct Hstep as (Hn1 & Hd1 & Hs1 & Hsub1).
    destruct c.
    + apply IH in H as (Hn' & Hw' & [new2 Hp'] & Hd' & Hs' & Hsub');
        [|apply Hnext; [reflexivity | exact Hn]].
      repeat split; try lia.
      * congruence.
      * exists (new1 ++ new2). rewrite Hp', Hp, <- app_assoc. reflexivity.
      * transitivity (posted_items b1); assumption.
    + injection H as <- <-. repeat split; try lia; try assumption.
      exists new1. exact Hp.
    + injection H as <- <-. repeat split; try lia; try assumption.
      exists new1. exact Hp.
Qed.

(** The whole call: the effect of the loop, or nothing at all when the
    parser raises or finds no entry. *)
Lemma check_single_feed_effect (feed_url : str) (max_items : Z) (b : bot) :
  let b' := check_single_feed E feed_url base_category max_items b in
  exists new_items : Z,
    0 <= new_items <= 2 /\
    deliveries b' = deliveries b + new_items /\
    seen b' = seen b + new_items /\
    posted_items b ⊆ posted_items b'.
Proof.
  cbv zeta. unfold check_single_feed.
  destruct (feedparser_parse E feed_url) as [[|e entries]|].
  - exists 0. split; [lia|]. split; [lia|]. split; [lia | reflexivity].
  - destruct (feed_loop E base_category (py_slice_to (e :: entries) max_items) 0 b)
      as [n' b'] eqn:Hfeed.
    apply feed_loop_effect in Hfeed as (Hn & _ & _ & Hd & Hs & Hsub); [|lia].
    exists n'. simpl. split; [lia|]. split; [lia|]. split; [lia | exact Hsub].
  - exists 0. split; [lia|]. split; [lia|]. split; [lia | reflexivity].
Qed.

End FeedProcessor.

Lemma fold_left_preserves {A B : Type} (P : A -> Prop) (f : A -> B -> A) (l : list B) :
  (forall a x, P a -> P (f a x)) -> forall a, P a -> P (fold_left f l a).
Proof.
  intros Hf. induction l as [|x l IH]; intros a Ha; simpl; [exact Ha|].
  apply IH, Hf, Ha.
Qed.

(** Over a whole run the accepted posts and the posted items grow by the
    same number: no identifier is delivered twice. *)
Lemma run_balance (E : env) (b : bot) :
  deliveries (run E b) - deliveries b = seen (run E b) - seen b.
Proof.
  unfold run.
  apply (fold_left_preserves
           (fun b' => deliveries b' - deliveries b = seen b' - seen b));
    [|unfold deliveries, seen; simpl; lia].
  intros b1 [category feed_urls] H1.
  apply (fold_left_preserves
           (fun b' => deliveries b' - deliveries b = seen b' - seen b)); [|exact H1].
  intros b2 feed_url H2.
  destruct (check_single_feed_effect E category feed_url 5 b2)
    as (new_items & _ & Hd & Hs & _).
  lia.
Qed.

(** ** The recency filter *)

(** C3.  An entry without a published timestamp passes the recency
    filter, and so does one whose timestamp is not a valid date (the
    exception is swallowed).  An entry with a timestamp passes exactly
    when [now - published <= 48 hours]: older entries are rejected, one
    published 48 hours minus one second ago passes.  A rejected entry is
    skipped without an error: the loop goes on to the next entry. *)
Theorem recency_filter_48_hours (E : env) (e : entry) (b : bot) :
  let now := datetime_now E (clock b) in
  let passes := negb (fst (too_old E e b)) in
  (entry_published_parsed e = None -> passes = true) /\
  (forall t, entry_published_parsed e = Some t ->
             datetime_of_struct t = None -> passes = true) /\
  (forall t published,
     entry_published_parsed e = Some t ->
     datetime_of_struct t = Some published ->
     (passes = true <-> now - published <= timedelta_hours 48) /\
     (now - published > timedelta_hours 48 -> passes = false) /\
     (now - published = timedelta_hours 48 - timedelta_seconds 1 -> passes = true)) /\
  (forall base_category n title link item_id,
     entry_title e = Some title -> entry_link e = Some link ->
     generate_item_id title link = Some item_id ->
     passes = false ->
     fst (fst (loop_body E base_category e n b)) = Next).
Proof.
  cbv zeta. split; [|split; [|split]].
  - unfold too_old. intros ->. reflexivity.
  - unfold too_old. intros t -> ->. reflexivity.
  - intros t published Ht Hd.
    assert (Hiff : negb (fst (too_old E e b)) = true
                   <-> datetime_now E (clock b) - published <= timedelta_hours 48).
    { unfold too_old. rewrite Ht, Hd. unfold datetime_sub.
      apply datetime_nonneg in Hd.
      destruct (Z.ltb_spec (datetime_now E (clock b) - timedelta_hours 48) 0) as [Hlt|Hge];
        simpl.
      - split; [lia | reflexivity].
      - rewrite negb_true_iff, Z.ltb_ge. lia. }
    split; [exact Hiff|]. split.
    + intros Hold. destruct (negb (fst (too_old E e b))); [|reflexivity].
      destruct Hiff as [Hiff _]. specialize (Hiff eq_refl). lia.
    + intros Hedge. apply Hiff. unfold timedelta_seconds in Hedge. lia.
  - intros base_category n title link item_id Ht Hl Hid Hold.
    apply negb_false_iff in Hold.
    unfold loop_body. rewrite Ht, Hl, Hid.
    destruct (decide (item_id ∈ posted_items b)); [reflexivity|].
    destruct (too_old E e b) as [old b1]. simpl in Hold. subst old. reflexivity.
Qed.

(** In the sample feed the entry published 48 hours and one second ago
    is rejected, the one published 48 hours minus one second ago passes,
    and so does the one dated 30 February. *)
Lemma recency_filter_48_hours_witness :
  fst (too_old (sample_env (fun _ => 204))
         (sample_entry "Old news" "http://a/2" "x" (Some (sample_time 2024 3 8 11 59 59)))
         (init (sample_env (fun _ => 204)))) = true /\
  fst (too_old (sample_env (fun _ => 204))
         (sample_entry "Fresh enough" "http://a/3" "x" (Some (sample_time 2024 3 8 12 0 1)))
         (init (sample_env (fun _ => 204)))) = false /\
  fst (too_old (sample_env (fun _ => 204))
         (sample_entry "One more" "http://a/5" "" (Some (sample_time 2024 2 30 0 0 0)))
         (init (sample_env (fun _ => 204)))) = false.
Proof.
  split; [|split].
  - destruct (recency_filter_48_hours (sample_env (fun _ => 204))
                (sample_entry "Old news" "http://a/2" "x"
                   (Some (sample_time 2024 3 8 11 59 59)))
                (init (sample_env (fun _ => 204)))) as (_ & _ & H & _).
    destruct (H _ _ eq_refl eq_refl) as (_ & Hold & _).
    apply negb_false_iff, Hold. vm_compute. reflexivity.
  - destruct (recency_filter_48_hours (sample_env (fun _ => 204))
                (sample_entry "Fresh enough" "http://a/3" "x"
                   (Some (sample_time 2024 3 8 12 0 1)))
                (init (sample_env (fun _ => 204)))) as (_ & _ & H & _).
    destruct (H _ _ eq_refl eq_refl) as (_ & _ & Hedge).
    apply negb_true_iff, Hedge. vm_compute. reflexivity.
  - destruct (recency_filter_48_hours (sample_env (fun _ => 204))
                (sample_entry "One more" "http://a/5" ""
                   (Some (sample_time 2024 2 30 0 0 0)))
                (init (sample_env (fun _ => 204)))) as (_ & Hbad & _).
    apply negb_true_iff, (Hbad _ eq_refl). reflexivity.
Defined.

(** ** The message and the missing endpoint *)

(** C8.  In the embed of the message the title is the first 256
    characters of the input title (a title of 300 characters gives exactly
    256) and the description the first 2048 characters of the input
    description (3000 give exactly 2048); an empty description is
    replaced by "No description available".  With a webhook for the
    channel, this embed is what is posted. *)
Theorem embed_truncates_title_and_description
    (E : env) (channel title description url category : str) (b : bot) :
  let m := make_embed channel title description url (utcnow_isoformat E (clock b)) in
  (forall webhook_url,
     webhooks b !! channel = Some webhook_url -> webhook_url <> [] ->
     exists res,
       posts (snd (send_to_discord E channel title description url category b))
       = posts b ++ [(make_request webhook_url (make_data m), res)]) /\
  embed_title m = firstn 256 title /\
  length (embed_title m) = Nat.min 256 (length title) /\
  (length title = 300%nat -> length (embed_title m) = 256%nat) /\
  (description <> [] -> embed_description m = firstn 2048 description) /\
  (description <> [] ->
   length (embed_description m) = Nat.min 2048 (length description)) /\
  (length description = 3000%nat -> length (embed_description m) = 2048%nat) /\
  (description = [] -> embed_description m = py "No description available").
Proof.
  cbv zeta. split.
  { intros webhook_url Hw Hne.
    destruct (send_to_discord_cases E channel title description url category b)
      as [[Hnone _] | [webhook_url' [Hw' [_ Hsend]]]].
    - rewrite Hw in Hnone. destruct webhook_url; [congruence | contradiction].
    - rewrite Hw in Hw'. injection Hw' as <-. cbv zeta in Hsend. rewrite Hsend.
      eexists. reflexivity. }
  unfold make_embed, slice_to. cbn [embed_title embed_description].
  split; [reflexivity|].
  split; [apply length_firstn|].
  split; [intros H; rewrite length_firstn, H; reflexivity|].
  split; [destruct description; [congruence | reflexivity]|].
  split; [destruct description; [congruence | intros _; apply length_firstn]|].
  split.
  - destruct description as [|c description]; [discriminate|].
    intros H. rewrite length_firstn, H. reflexivity.
  - intros ->. reflexivity.
Qed.

Lemma embed_truncates_title_and_description_witness :
  length (embed_title
            (make_embed (py "ctf") (repeat 65%N 300) (repeat 66%N 3000) (py "http://a/1")
               (py "2024-03-10T12:00:00"))) = 256%nat /\
  length (embed_description
            (make_embed (py "ctf") (repeat 65%N 300) (repeat 66%N 3000) (py "http://a/1")
               (py "2024-03-10T12:00:00"))) = 2048%nat /\
  embed_description
    (make_embed (py "ctf") (repeat 65%N 300) [] (py "http://a/1")
       (py "2024-03-10T12:00:00")) = py "No description available".
Proof.
  split; [|split].
  - apply (embed_truncates_title_and_description (sample_env (fun _ => 204))
             (py "ctf") (repeat 65%N 300) (repeat 66%N 3000) (py "http://a/1")
             (py "ctf") (init (sample_env (fun _ => 204)))).
    vm_compute. reflexivity.
  - apply (embed_truncates_title_and_description (sample_env (fun _ => 204))
             (py "ctf") (repeat 65%N 300) (repeat 66%N 3000) (py "http://a/1")
             (py "ctf") (init (sample_env (fun _ => 204)))).
    vm_compute. reflexivity.
  - apply (embed_truncates_title_and_description (sample_env (fun _ => 204))
             (py "ctf") (repeat 65%N 300) [] (py "http://a/1")
             (py "ctf") (init (sample_env (fun _ => 204)))).
    reflexivity.
Defined.

(** The constructor keeps no empty webhook address. *)
Lemma configured_webhooks_nonempty (E : env) (channel : str) :
  configured_webhooks E !! channel <> Some [].
Proof.
  unfold configured_webhooks. generalize webhook_variables as l.
  induction l as [|p l IH]; simpl.
  - rewrite lookup_empty. discriminate.
  - destruct (getenv E (snd p)) as [[|c v]|]; try exact IH.
    destruct (decide (fst p = channel)) as [->|Hne].
    + rewrite lookup_insert_eq. discriminate.
    + rewrite lookup_insert_ne by exact Hne. exact IH.
Qed.



(** ** The cap, the failed delivery and the skipped entry *)

(** The sample feed, every post accepted: the first entry goes to the
    writeups channel, the second is too old, the third is posted and
    reaches the cap; two identifiers are recorded after four readings of
    the clock. *)
Example sample_feed_all_accepted :
  let b := check_single_feed (sample_env (fun _ => 204)) (py "https://feed.test/rss")
             (py "cryptography") 5 (init (sample_env (fun _ => 204))) in
  List.map (fun p => request_url (fst p)) (posts b)
  = [py "https://discord.test/WRITEUPS_WEBHOOK_URL";
     py "https://discord.test/CRYPTO_WEBHOOK_URL"] /\
  deliveries b = 2 /\ seen b = 2 /\ clock b = 4%nat.
Proof. vm_compute. repeat split. Qed.

(** The same with the second post refused: the third entry is not
    recorded and the fifth is posted; the fourth repeats the first and is
    passed over. *)
Example sample_feed_one_refused :
  let status n := if (n =? 1)%nat then 500 else 204 in
  let b := check_single_feed (sample_env status) (py "https://feed.test/rss")
             (py "cryptography") 5 (init (sample_env status)) in
  List.map (fun p => (embed_title <$> payload_embeds (request_json (fst p)), snd p)) (posts b)
  = [([py "CTF Writeup: Pwning the Box"], Response 204 []);
     ([py "Fresh enough"], Response 500 []);
     ([py "New Zero-Day in OpenSSL"], Response 204 [])] /\
  deliveries b = 2 /\ seen b = 2.
Proof. vm_compute. repeat split. Qed.

(** C1.  One call of [check_single_feed] has at most 2 accepted posts:
    the counter [new_items] never goes above 2, at no point of the loop,
    and it is the number of accepted posts of the call.  Every accepted
    post puts an identifier into [posted_items] that was not there
    before, so the set grows by exactly that number, in the call and over
    the whole run; and an entry whose identifier is in [posted_items] is
    passed over with nothing posted. *)
Theorem check_single_feed_cap_and_no_redelivery
    (E : env) (feed_url base_category : str) (max_items : Z) (b : bot) :
  let b' := check_single_feed E feed_url base_category max_items b in
  (exists new_items : Z,
     0 <= new_items <= 2 /\
     deliveries b' = deliveries b + new_items /\
     seen b' = seen b + new_items) /\
  posted_items b ⊆ posted_items b' /\
  (forall entries, 0 <= fst (feed_loop E base_category entries 0 b) <= 2) /\
  (forall e n title link item_id,
     entry_title e = Some title -> entry_link e = Some link ->
     generate_item_id title link = Some item_id ->
     item_id ∈ posted_items b ->
     loop_body E base_category e n b = (Next, n, b)) /\
  deliveries (run E b) - deliveries b = seen (run E b) - seen b.
Proof.
  cbv zeta.
  destruct (check_single_feed_effect E base_category feed_url max_items b)
    as (new_items & Hn & Hd & Hs & Hsub).
  split; [exists new_items; repeat split; try lia; assumption|].
  split; [exact Hsub|].
  split; [|split; [|apply run_balance]].
  - intros entries.
    destruct (feed_loop E base_category entries 0 b) as [n' b'] eqn:Hfeed.
    apply feed_loop_effect in Hfeed as (Hn' & _); [|lia]. simpl. lia.
  - intros e n title link item_id Ht Hl Hid Hseen.
    unfold loop_body. rewrite Ht, Hl, Hid.
    destruct (decide (item_id ∈ posted_items b)); [reflexivity | contradiction].
Qed.

(** On the sample feed with every post accepted: two posts, two
    identifiers, and the fourth entry, a repetition of the first, is not
    posted again. *)
Lemma check_single_feed_cap_and_no_redelivery_witness :
  deliveries (check_single_feed (sample_env (fun _ => 204)) (py "https://feed.test/rss")
                (py "cryptography") 5 (init (sample_env (fun _ => 204)))) <= 2 /\
  loop_body (sample_env (fun _ => 204)) (py "cryptography")
    (sample_entry "CTF Writeup: Pwning the Box" "http://a/1" "" None) 1
    (add_posted (py "a47a73f72251c91540b8a3f2be6c4077") (init (sample_env (fun _ => 204))))
  = (Next, 1,
     add_posted (py "a47a73f72251c91540b8a3f2be6c4077") (init (sample_env (fun _ => 204)))).
Proof.
  split.
  - destruct (check_single_feed_cap_and_no_redelivery (sample_env (fun _ => 204))
                (py "https://feed.test/rss") (py "cryptography") 5
                (init (sample_env (fun _ => 204))))
      as ((new_items & Hn & Hd & _) & _).
    rewrite Hd. change (deliveries (init (sample_env (fun _ => 204)))) with 0. lia.
  - apply (check_single_feed_cap_and_no_redelivery (sample_env (fun _ => 204))
             (py "https://feed.test/rss") (py "cryptography") 5
             (add_posted (py "a47a73f72251c91540b8a3f2be6c4077")
                (init (sample_env (fun _ => 204)))))
      with (title := py "CTF Writeup: Pwning the Box") (link := py "http://a/1")
           (item_id := py "a47a73f72251c91540b8a3f2be6c4077").
    + reflexivity.
    + reflexivity.
    + vm_compute. reflexivity.
    + apply elem_of_union_l, elem_of_singleton. reflexivity.
Defined.

(** C2.  When the post for an entry is not accepted (the transport
    answers with a status other than 204, or raises), the attempt is on
    record but the identifier of the entry is not added to
    [posted_items], which stays as it was, and the counter is not
    incremented. *)
Theorem failed_delivery_is_not_recorded_as_posted
    (E : env) (base_category : str) (e : entry) (n : Z) (b : bot)
    (title link item_id webhook_url : str) :
  let summary := default [] (entry_summary e) in
  let channel := get_appropriate_channel base_category title summary in
  let b1 := snd (too_old E e b) in
  let r := make_request webhook_url
             (make_data (make_embed channel title summary link
                           (utcnow_isoformat E (clock b1)))) in
  let res := requests_post E (length (posts b)) r in
  entry_title e = Some title -> entry_link e = Some link ->
  generate_item_id title link = Some item_id ->
  item_id ∉ posted_items b ->
  fst (too_old E e b) = false ->
  webhooks b !! channel = Some webhook_url -> webhook_url <> [] ->
  delivered res = false ->
  let out := loop_body E base_category e n b in
  snd (fst out) = n /\
  posted_items (snd out) = posted_items b /\
  (item_id ∉ posted_items (snd out)) /\
  posts (snd out) = posts b ++ [(r, res)] /\
  deliveries (snd out) = deliveries b /\
  fst (fst out) <> Raised.
Proof.
  cbv zeta. intros Ht Hl Hid Hnew Hold Hw Hne Hfail.
  destruct (too_old_fields E e b) as (Hw1 & Hi1 & Hp1).
  unfold loop_body. rewrite Ht, Hl, Hid.
  destruct (decide (item_id ∈ posted_items b)); [contradiction|].
  destruct (too_old E e b) as [old b1]. simpl in *. subst old.
  destruct (send_to_discord_cases E
              (get_appropriate_channel base_category title (default [] (entry_summary e)))
              title (default [] (entry_summary e)) link base_category b1)
    as [[Hnone _] | [webhook_url' [Hw' [_ Hsend]]]].
  - rewrite Hw1, Hw in Hnone. destruct webhook_url; [congruence | contradiction].
  - rewrite Hw1, Hw in Hw'. injection Hw' as <-.
    cbv zeta in Hsend. rewrite Hp1 in Hsend. rewrite Hsend, Hfail.
    assert (Hd : deliveries (record_post
                   (make_request webhook_url
                      (make_data (make_embed
                         (get_appropriate_channel base_category title
                            (default [] (entry_summary e)))
                         title (default [] (entry_summary e)) link
                         (utcnow_isoformat E (clock b1)))))
                   (requests_post E (length (posts b))
                      (make_request webhook_url
                         (make_data (make_embed
                            (get_appropriate_channel base_category title
                               (default [] (entry_summary e)))
                            title (default [] (entry_summary e)) link
                            (utcnow_isoformat E (clock b1))))))
                   (tick b1)) = deliveries b).
    { rewrite deliveries_record_post, Hfail. unfold deliveries. simpl.
      rewrite Hp1. lia. }
    destruct (Z.geb_spec n 2); simpl;
      (split; [reflexivity|]); (split; [exact Hi1|]);
      (split; [rewrite Hi1; exact Hnew|]);
      (split; [rewrite Hp1; reflexivity|]);
      (split; [exact Hd | discriminate]).
Qed.

(** On the sample feed with every post answered by status 500, the first
    entry is posted to the writeups channel and is not marked as posted. *)
Lemma failed_delivery_is_not_recorded_as_posted_witness :
  snd (fst (loop_body (sample_env (fun _ => 500)) (py "cryptography")
              (sample_entry "CTF Writeup: Pwning the Box" "http://a/1" "" None) 0
              (init (sample_env (fun _ => 500))))) = 0 /\
  posted_items (snd (loop_body (sample_env (fun _ => 500)) (py "cryptography")
                       (sample_entry "CTF Writeup: Pwning the Box" "http://a/1" "" None) 0
                       (init (sample_env (fun _ => 500))))) = ∅.
Proof.
  destruct (failed_delivery_is_not_recorded_as_posted (sample_env (fun _ => 500))
              (py "cryptography")
              (sample_entry "CTF Writeup: Pwning the Box" "http://a/1" "" None) 0
              (init (sample_env (fun _ => 500)))
              (py "CTF Writeup: Pwning the Box") (py "http://a/1")
              (py "a47a73f72251c91540b8a3f2be6c4077")
              (py "https://discord.test/WRITEUPS_WEBHOOK_URL"))
    as (Hn & Hi & _).
  - reflexivity.
  - reflexivity.
  - vm_compute. reflexivity.
  - apply not_elem_of_empty.
  - reflexivity.
  - vm_compute. reflexivity.
  - discriminate.
  - reflexivity.
  - split; [exact Hn | exact Hi].
Defined.

(** C10.  An entry that is skipped, because its identifier is in
    [posted_items] or because it is older than 48 hours, is not posted:
    the record of posts, the set of posted items and the counter stay as
    they are, and the loop goes on with the next entry. *)
Theorem skipped_entry_changes_nothing
    (E : env) (base_category : str) (e : entry) (n : Z) (b : bot)
    (title link item_id : str) :
  entry_title e = Some title -> entry_link e = Some link ->
  generate_item_id title link = Some item_id ->
  item_id ∈ posted_items b \/ fst (too_old E e b) = true ->
  let out := loop_body E base_category e n b in
  fst (fst out) = Next /\
  snd (fst out) = n /\
  posts (snd out) = posts b /\
  posted_items (snd out) = posted_items b /\
  webhooks (snd out) = webhooks b /\
  (item_id ∈ posted_items b -> snd out = b) /\
  (forall entries,
     feed_loop E base_category (e :: entries) n b
     = feed_loop E base_category entries n (snd out)).
Proof.
  cbv zeta. intros Ht Hl Hid Hskip.
  destruct (too_old_fields E e b) as (Hw1 & Hi1 & Hp1).
  cbn [feed_loop]. unfold loop_body. rewrite Ht, Hl, Hid.
  destruct (decide (item_id ∈ posted_items b)) as [Hseen|Hnew].
  - repeat split; reflexivity.
  - destruct Hskip as [Hseen|Hold]; [contradiction|].
    destruct (too_old E e b) as [old b1]. simpl in *. subst old.
    repeat split; try assumption; try reflexivity. intros; contradiction.
Qed.

(** On the sample feed: the entry published 48 hours and one second ago
    is skipped. *)
Lemma skipped_entry_changes_nothing_witness :
  fst (fst (loop_body (sample_env (fun _ => 204)) (py "cryptography")
              (sample_entry "Old news" "http://a/2" "x"
                 (Some (sample_time 2024 3 8 11 59 59))) 0
              (init (sample_env (fun _ => 204))))) = Next /\
  posts (snd (loop_body (sample_env (fun _ => 204)) (py "cryptography")
                (sample_entry "Old news" "http://a/2" "x"
                   (Some (sample_time 2024 3 8 11 59 59))) 0
                (init (sample_env (fun _ => 204))))) = [].
Proof.
  destruct (skipped_entry_changes_nothing (sample_env (fun _ => 204)) (py "cryptography")
              (sample_entry "Old news" "http://a/2" "x"
                 (Some (sample_time 2024 3 8 11 59 59))) 0
              (init (sample_env (fun _ => 204)))
              (py "Old news") (py "http://a/2") (py "091e8412502d24f4d2bd7de6c6f4a8cb"))
    as (Hc & _ & Hp & _).
  - reflexivity.
  - reflexivity.
  - vm_compute. reflexivity.
  - right. vm_compute. reflexivity.
  - split; [exact Hc | exact Hp].
Defined.

(** * Further properties of the code *)

(** ** The constructor *)

Lemma fold_insert_lookup (E : env) (l : list (str * str)) (channel url : str) :
  List.NoDup (List.map fst l) ->
  fold_right
    (fun p (m : gmap str str) =>
       match getenv E (snd p) with
       | Some (c :: v) => <[fst p := c :: v]> m
       | _ => m
       end) ∅ l !! channel = Some url
  <-> url <> [] /\ exists variable, In (channel, variable) l /\ getenv E variable = Some url.
Proof.
  induction l as [|[k variable] l IH]; intros Hnd; simpl.
  - rewrite lookup_empty. split; [discriminate | intros [_ [v [[] _]]]].
  - inversion Hnd as [|? ? Hk Hnd']; subst.
    specialize (IH Hnd').
    assert (Hother : forall v, In (k, v) l -> False).
    { intros v Hin. apply Hk. apply in_map_iff. exists (k, v). split; [reflexivity | exact Hin]. }
    destruct (decide (k = channel)) as [->|Hne].
    + destruct (getenv E variable) as [[|c v]|] eqn:Hget.
      * rewrite IH. split.
        -- intros [_ [v [Hin _]]]. destruct (Hother v Hin).
        -- intros [Hurl [v [[Heq|Hin] Hv]]]; [|destruct (Hother v Hin)].
           injection Heq as <-. congruence.
      * rewrite lookup_insert_eq. split.
        -- intros H. injection H as <-. split; [discriminate|].
           exists variable. split; [left; reflexivity | exact Hget].
        -- intros [_ [v' [[Heq|Hin] Hv]]]; [|destruct (Hother v' Hin)].
           injection Heq as <-. congruence.
      * rewrite IH. split.
        -- intros [_ [v [Hin _]]]. destruct (Hother v Hin).
        -- intros [Hurl [v [[Heq|Hin] Hv]]]; [|destruct (Hother v Hin)].
           injection Heq as <-. congruence.
    + assert (Hrest : fold_right
                (fun p (m : gmap str str) =>
                   match getenv E (snd p) with
                   | Some (c :: v) => <[fst p := c :: v]> m
                   | _ => m
                   end) ∅ l !! channel = Some url
              <-> url <> [] /\
                  exists variable0, ((k, variable) = (channel, variable0) \/
                                     In (channel, variable0) l) /\
                                    getenv E variable0 = Some url).
      { rewrite IH. split.
        - intros [Hurl [v [Hin Hv]]]. split; [exact Hurl|]. exists v. auto.
        - intros [Hurl [v [[Heq|Hin] Hv]]]; [congruence|].
          split; [exact Hurl|]. exists v. auto. }
      destruct (getenv E variable) as [[|c v]|]; try exact Hrest.
      rewrite lookup_insert_ne by exact Hne. exact Hrest.
Qed.

(** X1.  After [__init__] a channel has a webhook exactly when it is one
    of the eight channels of the table and its environment variable is
    set to a non-empty address, which is then the webhook; the set of
    posted items is empty and nothing has been posted. *)
Theorem init_webhooks_from_environment (E : env) (channel url : str) :
  (webhooks (init E) !! channel = Some url
   <-> url <> [] /\
       exists variable, In (channel, variable) webhook_variables /\
                        getenv E variable = Some url) /\
  (webhooks (init E) !! channel = None
   <-> forall variable, In (channel, variable) webhook_variables ->
                        getenv E variable = None \/ getenv E variable = Some []) /\
  posted_items (init E) = ∅ /\ posts (init E) = [].
Proof.
  assert (Hnd : List.NoDup (List.map fst webhook_variables)).
  { repeat (apply List.NoDup_cons;
            [intros H; vm_compute in H; intuition discriminate|]).
    apply List.NoDup_nil. }
  assert (Hsome : forall u, webhooks (init E) !! channel = Some u
            <-> u <> [] /\ exists variable, In (channel, variable) webhook_variables /\
                                            getenv E variable = Some u).
  { intros u. apply (fold_insert_lookup E webhook_variables channel u Hnd). }
  split; [apply Hsome|]. split; [|split; reflexivity].
  split.
  - intros Hnone variable Hin.
    destruct (getenv E variable) as [[|c v]|] eqn:Hget; auto.
    assert (H : webhooks (init E) !! channel = Some (c :: v)).
    { apply Hsome. split; [discriminate|]. exists variable. auto. }
    congruence.
  - intros Hall. apply eq_None_not_Some. intros [u Hu].
    apply Hsome in Hu as [Hne [variable [Hin Hget]]].
    destruct (Hall variable Hin) as [H|H]; congruence.
Qed.

(** ** The classifier and the router *)

Lemma substring_of_trans (k1 k2 s : str) :
  substring_of k1 k2 -> substring_of k2 s -> substring_of k1 s.
Proof.
  intros [pre1 [post1 ->]] [pre2 [post2 ->]].
  exists (pre2 ++ pre1), (post1 ++ post2). rewrite <- !app_assoc. reflexivity.
Qed.

Lemma keyword_score_two (keywords : list str) (text k1 k2 : str) :
  k1 <> k2 -> In k1 keywords -> In k2 keywords ->
  substring_of k1 text -> substring_of k2 text ->
  2 <= keyword_score keywords text.
Proof.
  intros Hne H1 H2 Hs1 Hs2. rewrite keyword_score_length.
  assert (Hlen : (length [k1; k2]
                  <= length (List.filter (fun keyword => contains keyword text) keywords))%nat).
  { apply List.NoDup_incl_length.
    - apply List.NoDup_cons; [intros [H|[]]; congruence|].
      apply List.NoDup_cons; [intros []|apply List.NoDup_nil].
    - intros k [<-|[<-|[]]]; apply filter_In; split; try assumption;
        apply contains_spec; assumption. }
  simpl in Hlen. lia.
Qed.

(** X3.  Three keywords contain another keyword of their list
    ("introduction" has "intro", "basics" has "basic", "advanced
    techniques" has "advanced"), so a text with one of them scores at
    least 2 for that list. *)
Theorem overlapping_keywords_count_twice (title description : str) :
  let text := title ++ py " " ++ description in
  (occurs_ignoring_case (py "introduction") text -> 2 <= beginner_score title description) /\
  (occurs_ignoring_case (py "basics") text -> 2 <= beginner_score title description) /\
  (occurs_ignoring_case (py "advanced techniques") text ->
   2 <= intermediate_score title description).
Proof.
  cbv zeta. unfold beginner_score, intermediate_score, classify_text.
  split; [|split]; intros H; apply substring_of_lower in H.
  - apply (keyword_score_two _ _ (py "intro") (py "introduction"));
      [discriminate | vm_compute; tauto | vm_compute; tauto | | exact H].
    apply (substring_of_trans _ (py "introduction")); [|exact H].
    exists [], (py "duction"). reflexivity.
  - apply (keyword_score_two _ _ (py "basic") (py "basics"));
      [discriminate | vm_compute; tauto | vm_compute; tauto | | exact H].
    apply (substring_of_trans _ (py "basics")); [|exact H].
    exists [], (py "s"). reflexivity.
  - apply (keyword_score_two _ _ (py "advanced") (py "advanced techniques"));
      [discriminate | vm_compute; tauto | vm_compute; tauto | | exact H].
    apply (substring_of_trans _ (py "advanced techniques")); [|exact H].
    exists [], (py " techniques"). reflexivity.
Qed.

Lemma overlapping_keywords_count_twice_witness :
  2 <= beginner_score (py "Introduction to Buffer Overflows") [].
Proof.
  destruct (overlapping_keywords_count_twice (py "Introduction to Buffer Overflows") [])
    as (H & _).
  apply H.
  exists [], (py " to buffer overflows "). vm_compute. reflexivity.
Defined.

Lemma keyword_score_zero (keywords : list str) (text : str) :
  keyword_score keywords text = 0
  <-> forall keyword, In keyword keywords -> ~ substring_of keyword text.
Proof.
  rewrite keyword_score_length. induction keywords as [|k keywords IH]; simpl.
  - split; [intros _ keyword [] | reflexivity].
  - destruct (contains k text) eqn:Hk; simpl.
    + split; [lia|]. intros H. exfalso. apply (H k); [left; reflexivity|].
      apply contains_spec. exact Hk.
    + rewrite IH. split.
      * intros H keyword [<-|Hin]; [apply contains_false; exact Hk | apply H; exact Hin].
      * intros H keyword Hin. apply H. right. exact Hin.
Qed.

Lemma keyword_score_positive (keywords : list str) (text : str) :
  0 < keyword_score keywords text ->
  exists keyword, In keyword keywords /\ substring_of keyword text.
Proof.
  rewrite keyword_score_length. induction keywords as [|k keywords IH]; simpl; [lia|].
  destruct (contains k text) eqn:Hk.
  - intros _. exists k. split; [left; reflexivity | apply contains_spec; exact Hk].
  - intros H. destruct (IH H) as [keyword [Hin Hs]]. exists keyword. auto.
Qed.

(** X4.  The label is "general" exactly when no keyword of either list
    occurs in the text, whatever the case; a "beginner" text has a
    beginner keyword and an "intermediate" text an intermediate one. *)
Theorem general_exactly_without_keywords (title description : str) :
  let text := title ++ py " " ++ description in
  (classify_difficulty title description = py "general"
   <-> forall keyword, In keyword (beginner_keywords ++ intermediate_keywords) ->
                       ~ occurs_ignoring_case keyword text) /\
  (classify_difficulty title description = py "beginner" ->
   exists keyword, In keyword beginner_keywords /\ occurs_ignoring_case keyword text) /\
  (classify_difficulty title description = py "intermediate" ->
   exists keyword, In keyword intermediate_keywords /\ occurs_ignoring_case keyword text).
Proof.
  cbv zeta.
  pose proof (keyword_score_bounds beginner_keywords (classify_text title description)) as Hb.
  pose proof (keyword_score_bounds intermediate_keywords (classify_text title description)) as Hi.
  pose proof (keyword_score_zero beginner_keywords (classify_text title description)) as Zb.
  pose proof (keyword_score_zero intermediate_keywords (classify_text title description)) as Zi.
  pose proof (keyword_score_positive beginner_keywords (classify_text title description)) as Pb.
  pose proof (keyword_score_positive intermediate_keywords (classify_text title description)) as Pi.
  unfold classify_difficulty, beginner_score, intermediate_score.
  unfold classify_text in *.
  destruct (Z.gtb_spec (keyword_score beginner_keywords
                          (lower (title ++ py " " ++ description)))
                       (keyword_score intermediate_keywords
                          (lower (title ++ py " " ++ description)))) as [Hgt|Hle];
    [|destruct (Z.gtb_spec (keyword_score intermediate_keywords
                              (lower (title ++ py " " ++ description))) 0) as [Hpos|Hzero]].
  - split; [|split].
    + split; [discriminate|]. intros Hnone. exfalso.
      destruct Pb as [keyword [Hin Hs]]; [lia|].
      apply (Hnone keyword); [apply in_or_app; left; exact Hin|].
      apply substring_of_lower. exact Hs.
    + intros _. destruct Pb as [keyword [Hin Hs]]; [lia|].
      exists keyword. split; [exact Hin | apply substring_of_lower; exact Hs].
    + discriminate.
  - split; [|split].
    + split; [discriminate|]. intros Hnone. exfalso.
      destruct Pi as [keyword [Hin Hs]]; [lia|].
      apply (Hnone keyword); [apply in_or_app; right; exact Hin|].
      apply substring_of_lower. exact Hs.
    + discriminate.
    + intros _. destruct Pi as [keyword [Hin Hs]]; [lia|].
      exists keyword. split; [exact Hin | apply substring_of_lower; exact Hs].
  - split; [|split]; try discriminate.
    split; [|reflexivity]. intros _ keyword Hin Hocc.
    apply substring_of_lower in Hocc.
    apply in_app_or in Hin as [Hin|Hin].
    + destruct Zb as [Zb _]. apply (Zb ltac:(lia) keyword Hin Hocc).
    + destruct Zi as [Zi _]. apply (Zi ltac:(lia) keyword Hin Hocc).
Qed.

(** ** The notifier *)


Lemma shift_avoids (runs : list (Z * Z * Z * Z)) (x z : Z) :
  forallb (run_avoids x) runs = true -> z <> x -> CaseTables.shift runs z <> x.
Proof.
  induction runs as [|[[[lo hi] step] delta] rest IH]; simpl; intros Hall Hz.
  - exact Hz.
  - apply andb_true_iff in Hall as [Hrun Hrest].
    destruct ((lo <=? z) && (z <=? hi) && ((z - lo) mod step =? 0)) eqn:Hin.
    + apply andb_true_iff in Hin as [Hin _].
      apply andb_true_iff in Hin as [Hlo Hhi].
      apply negb_true_iff, andb_false_iff in Hrun. lia.
    + apply IH; assumption.
Qed.

Lemma special_avoids (table : list (Z * list Z)) (x z : Z) (image : list Z) :
  forallb (image_avoids x) table = true ->
  CaseTables.special table z = Some image -> ~ In x image.
Proof.
  induction table as [|[c img] rest IH]; simpl; intros Hall Hz; [discriminate|].
  apply andb_true_iff in Hall as [Himg Hrest].
  destruct (c =? z).
  - injection Hz as <-. intros Hin. unfold image_avoids in Himg. simpl in Himg.
    rewrite forallb_forall in Himg. specialize (Himg x Hin).
    rewrite Z.eqb_refl in Himg. discriminate.
  - apply IH; assumption.
Qed.

Lemma lower_at_keeps_underscore_out (before : str) (c : N) (after : str) :
  c <> 95%N -> ~ In 95%N (lower_at before c after).
Proof.
  intros Hc. unfold lower_at, to_lower_full, to_lower.
  destruct (c =? 0x3A3)%N.
  - destruct (final_sigma before after); simpl; intros [H|[]]; discriminate.
  - destruct (c =? 0x130)%N.
    + simpl. intros [H|[H|[]]]; discriminate.
    + intros [H|[]].
      assert (Hs : CaseTables.shift CaseTables.lower_runs (Z.of_N c) <> 95).
      { apply shift_avoids; [vm_compute; reflexivity | lia]. }
      lia.
Qed.

Lemma to_title_full_keeps_underscore_out (c : N) :
  c <> 95%N -> ~ In 95%N (to_title_full c).
Proof.
  intros Hc. unfold to_title_full.
  destruct (CaseTables.special CaseTables.title_special (Z.of_N c)) as [image|] eqn:Hspecial.
  - intros Hin. apply in_map_iff in Hin as [y [Hy Hin]].
    assert (Hy95 : y = 95) by lia. subst y.
    assert (Hall : forallb (image_avoids 95) CaseTables.title_special = true)
      by (vm_compute; reflexivity).
    exact (special_avoids _ 95 _ _ Hall Hspecial Hin).
  - intros [H|[]].
    assert (Hs : CaseTables.shift CaseTables.title_runs (Z.of_N c) <> 95).
    { apply shift_avoids; [vm_compute; reflexivity | lia]. }
    lia.
Qed.

Lemma title_from_no_underscore (before : str) (previous_is_cased : bool) (s : str) :
  ~ In 95%N (title_from before previous_is_cased (replace_underscores s)).
Proof.
  revert before previous_is_cased.
  induction s as [|c s IH]; intros before previous_is_cased; simpl.
  - intros [].
  - intros H. apply in_app_or in H as [H|H]; [|exact (IH _ _ H)].
    assert (Hc : (if (c =? 95)%N then 32%N else c) <> 95%N).
    { destruct (N.eqb_spec c 95); [discriminate | assumption]. }
    destruct previous_is_cased.
    + exact (lower_at_keeps_underscore_out _ _ _ Hc H).
    + exact (to_title_full_keeps_underscore_out _ Hc H).
Qed.

(** X6.  The styling of the embed: the colour is the default gray
    exactly when the channel is none of the eight channels of the colour
    table, and such a channel gets the default emoji; the footer never
    has an underscore, whatever the channel; the link is passed on as it
    is. *)
Theorem embed_styling (channel title description url timestamp : str) :
  let m := make_embed channel title description url timestamp in
  (embed_color m = 0x808080 <-> ~ In channel styled_channels) /\
  (~ In channel styled_channels ->
   embed_footer_text m
   = [0x1F4E1%N] ++ py " " ++ str_title (replace_underscores channel)) /\
  ~ In 95%N (embed_footer_text m) /\
  embed_url m = url.
Proof.
  cbv zeta. unfold make_embed. cbn [embed_color embed_footer_text embed_url].
  assert (Hcases : In channel styled_channels \/ ~ In channel styled_channels).
  { destruct (in_dec (fun x y : str => decide (x = y)) channel styled_channels); auto. }
  split; [|split; [|split; [|reflexivity]]].
  - destruct Hcases as [Hin|Hout].
    + split; [|contradiction]. intros Hgray. exfalso.
      vm_compute in Hin. decompose [or] Hin; try contradiction; subst channel;
        vm_compute in Hgray; discriminate.
    + split; [intros _; exact Hout|]. intros _.
      unfold colors, dict_get.
      repeat match goal with
             | |- context [decide (?k = channel)] =>
                 destruct (decide (k = channel)) as [Heq|_];
                 [exfalso; apply Hout; rewrite <- Heq; vm_compute; tauto|]
             end.
      reflexivity.
  - intros Hout. f_equal.
    unfold emojis, dict_get.
    repeat match goal with
           | |- context [decide (?k = channel)] =>
               destruct (decide (k = channel)) as [Heq|_];
               [exfalso; apply Hout; rewrite <- Heq; vm_compute; tauto|]
           end.
    reflexivity.
  - intros H. apply in_app_or in H as [H|H].
    + unfold emojis, dict_get in H.
      repeat match type of H with
             | context [decide (?k = channel)] => destruct (decide (k = channel)) as [_|_]
             end;
        vm_compute in H; decompose [or] H; try contradiction; discriminate.
    + apply in_app_or in H as [H|H].
      * vm_compute in H. decompose [or] H; try contradiction; discriminate.
      * exact (title_from_no_underscore [] false channel H).
Qed.

(** ** The posts of the feed processor *)

Lemma get_appropriate_channel_range (category title description : str) :
  In (get_appropriate_channel category title description)
     [py "writeups"; py "ctf"; category].
Proof.
  unfold get_appropriate_channel.
  destruct (any_keyword writeup_keywords title description); [left; reflexivity|].
  destruct (any_keyword ctf_keywords title description); simpl; auto.
Qed.

Section FeedPosts.

Context (E : env) (base_category : str).

(** One pass through the loop body adds at most one post, and that post
    goes to the webhook of the channel the router chose. *)
Lemma loop_body_new_posts (e : entry) (n : Z) (b : bot) (c : control) (n' : Z) (b' : bot) :
  loop_body E base_category e n b = (c, n', b') ->
  exists new_posts,
    posts b' = posts b ++ new_posts /\
    (length new_posts <= 1)%nat /\
    Forall (routed_for (webhooks b) [py "writeups"; py "ctf"; base_category]) new_posts.
Proof.
  assert (Hnone : forall c0 n0 b0, posts b0 = posts b -> (c0, n0, b0) = (c, n', b') ->
            exists new_posts,
              posts b' = posts b ++ new_posts /\
              (length new_posts <= 1)%nat /\
              Forall (routed_for (webhooks b) [py "writeups"; py "ctf"; base_category])
                     new_posts).
  { intros c0 n0 b0 Hp H. injection H as <- <- <-. exists [].
    rewrite app_nil_r. split; [exact Hp|]. split; [simpl; lia | constructor]. }
  unfold loop_body.
  destruct (entry_title e) as [title|]; [|apply Hnone; reflexivity].
  destruct (entry_link e) as [link|]; [|apply Hnone; reflexivity].
  destruct (generate_item_id title link) as [item_id|]; [|apply Hnone; reflexivity].
  destruct (decide (item_id ∈ posted_items b)); [apply Hnone; reflexivity|].
  destruct (too_old_fields E e b) as (Hw1 & _ & Hp1).
  destruct (too_old E e b) as [old b1]. simpl in Hw1, Hp1.
  destruct old; [apply Hnone; exact Hp1|].
  pose proof (get_appropriate_channel_range base_category title
                (default [] (entry_summary e))) as Hrange.
  destruct (send_to_discord_cases E
              (get_appropriate_channel base_category title (default [] (entry_summary e)))
              title (default [] (entry_summary e)) link base_category b1)
    as [[_ Hsend] | [webhook_url [Hw [_ Hsend]]]]; cbv zeta in Hsend; rewrite Hsend.
  - destruct (n >=? 2); apply Hnone; exact Hp1.
  - clear Hnone. intros H.
    exists [(make_request webhook_url
               (make_data (make_embed
                  (get_appropriate_channel base_category title (default [] (entry_summary e)))
                  title (default [] (entry_summary e)) link
                  (utcnow_isoformat E (clock b1)))),
             requests_post E (length (posts b1))
               (make_request webhook_url
                  (make_data (make_embed
                     (get_appropriate_channel base_category title
                        (default [] (entry_summary e)))
                     title (default [] (entry_summary e)) link
                     (utcnow_isoformat E (clock b1))))))].
    split; [|split; [simpl; lia|]].
    + destruct (delivered _);
        [destruct (n + 1 >=? 2) | destruct (n >=? 2)];
        injection H as <- <- <-; simpl; rewrite Hp1; reflexivity.
    + constructor; [|constructor].
      eexists. split; [exact Hrange|]. simpl. rewrite <- Hw1. exact Hw.
Qed.

Lemma feed_loop_new_posts (entries : list entry) (n : Z) (b : bot) (n' : Z) (b' : bot) :
  feed_loop E base_category entries n b = (n', b') ->
  webhooks b' = webhooks b /\
  exists new_posts,
    posts b' = posts b ++ new_posts /\
    (length new_posts <= length entries)%nat /\
    Forall (routed_for (webhooks b) [py "writeups"; py "ctf"; base_category]) new_posts.
Proof.
  revert n b. induction entries as [|e entries IH]; intros n b H; simpl in H.
  - injection H as <- <-. split; [reflexivity|]. exists [].
    rewrite app_nil_r. split; [reflexivity|]. split; [simpl; lia | constructor].
  - destruct (loop_body E base_category e n b) as [[c n1] b1] eqn:Hbody.
    pose proof (loop_body_effect E base_category e n b c n1 b1 Hbody) as (Hw & _).
    apply loop_body_new_posts in Hbody as (new1 & Hp1 & Hlen1 & Hall1).
    destruct c.
    + apply IH in H as (Hw' & new2 & Hp2 & Hlen2 & Hall2).
      split; [congruence|].
      exists (new1 ++ new2). split; [rewrite Hp2, Hp1, <- app_assoc; reflexivity|].
      split; [rewrite length_app; simpl; lia|].
      apply Forall_app_2; [exact Hall1 | rewrite <- Hw; exact Hall2].
    + injection H as <- <-. split; [exact Hw|].
      exists new1. split; [exact Hp1|]. split; [simpl; lia | exact Hall1].
    + injection H as <- <-. split; [exact Hw|].
      exists new1. split; [exact Hp1|]. split; [simpl; lia | exact Hall1].
Qed.

Lemma py_slice_to_length {A : Type} (l : list A) (n : Z) :
  (length (py_slice_to l n) <= length l)%nat /\
  (0 <= n -> Z.of_nat (length (py_slice_to l n)) <= n) /\
  (n < 0 -> Z.of_nat (length (py_slice_to l n)) = Z.max 0 (Z.of_nat (length l) + n)).
Proof.
  unfold py_slice_to. destruct (Z.ltb_spec n 0); rewrite length_firstn; lia.
Qed.

Lemma check_single_feed_new_posts (feed_url : str) (max_items : Z) (b : bot) :
  let b' := check_single_feed E feed_url base_category max_items b in
  webhooks b' = webhooks b /\
  exists new_posts,
    posts b' = posts b ++ new_posts /\
    Forall (routed_for (webhooks b) [py "writeups"; py "ctf"; base_category]) new_posts /\
    (0 <= max_items -> Z.of_nat (length new_posts) <= max_items) /\
    (forall entries, feedparser_parse E feed_url = Some entries ->
       Z.of_nat (length new_posts) <= Z.of_nat (length entries) /\
       (max_items < 0 ->
        Z.of_nat (length new_posts) <= Z.max 0 (Z.of_nat (length entries) + max_items))).
Proof.
  cbv zeta. unfold check_single_feed.
  assert (Hnone : webhooks b = webhooks b /\
            exists new_posts,
              posts b = posts b ++ new_posts /\
              Forall (routed_for (webhooks b) [py "writeups"; py "ctf"; base_category])
                     new_posts /\
              (0 <= max_items -> Z.of_nat (length new_posts) <= max_items) /\
              (forall entries, feedparser_parse E feed_url = Some entries ->
                 Z.of_nat (length new_posts) <= Z.of_nat (length entries) /\
                 (max_items < 0 ->
                  Z.of_nat (length new_posts)
                  <= Z.max 0 (Z.of_nat (length entries) + max_items)))).
  { split; [reflexivity|]. exists []. rewrite app_nil_r.
    split; [reflexivity|]. split; [constructor|]. simpl. split; [lia|].
    intros entries _. lia. }
  destruct (feedparser_parse E feed_url) as [[|e entries]|] eqn:Hparse;
    [exact Hnone | | exact Hnone].
  clear Hnone.
  destruct (feed_loop E base_category (py_slice_to (e :: entries) max_items) 0 b)
    as [n' b'] eqn:Hfeed.
  apply feed_loop_new_posts in Hfeed as (Hw & new_posts & Hp & Hlen & Hall).
  destruct (py_slice_to_length (e :: entries) max_items) as (Hl1 & Hl2 & Hl3).
  simpl. split; [exact Hw|]. exists new_posts.
  split; [exact Hp|]. split; [exact Hall|]. split; [lia|].
  intros entries' H. injection H as <-. lia.
Qed.

End FeedPosts.

(** X7.  One call of [check_single_feed] leaves the webhooks as they are
    and only adds posts at the end of the record: at most [max_items] of
    them (none for [max_items = 0]; a negative [max_items] leaves out
    that many entries at the end of the feed), each to the webhook of
    "writeups", of "ctf" or of the category of the feed.  When the parser
    raises or gives no entry the bot is left as it was. *)
Theorem check_single_feed_posts
    (E : env) (feed_url base_category : str) (max_items : Z) (b : bot) :
  let b' := check_single_feed E feed_url base_category max_items b in
  webhooks b' = webhooks b /\
  (exists new_posts,
     posts b' = posts b ++ new_posts /\
     Forall (routed_for (webhooks b) [py "writeups"; py "ctf"; base_category]) new_posts /\
     (0 <= max_items -> Z.of_nat (length new_posts) <= max_items) /\
     (forall entries, feedparser_parse E feed_url = Some entries ->
        Z.of_nat (length new_posts) <= Z.of_nat (length entries) /\
        (max_items < 0 ->
         Z.of_nat (length new_posts) <= Z.max 0 (Z.of_nat (length entries) + max_items)))) /\
  (max_items = 0 -> b' = b) /\
  (feedparser_parse E feed_url = None \/ feedparser_parse E feed_url = Some [] -> b' = b).
Proof.
  cbv zeta.
  destruct (check_single_feed_new_posts E base_category feed_url max_items b) as (Hw & Hnew).
  split; [exact Hw|]. split; [exact Hnew|]. unfold check_single_feed. split.
  - intros ->. destruct (feedparser_parse E feed_url) as [[|e entries]|]; reflexivity.
  - intros [-> | ->]; reflexivity.
Qed.

(** ** The whole run *)

Lemma fold_left_growth {A B : Type} (mu : A -> Z) (wt : B -> Z) (f : A -> B -> A)
    (l : list B) :
  (forall a x, mu (f a x) <= mu a + wt x) ->
  forall a, mu (fold_left f l a) <= mu a + fold_right (fun x acc => wt x + acc) 0 l.
Proof.
  intros Hf. induction l as [|x l IH]; intros a; simpl; [lia|].
  specialize (IH (f a x)). specialize (Hf a x). lia.
Qed.

Lemma fold_left_preserves_in {A B : Type} (P : A -> Prop) (f : A -> B -> A) (l : list B) :
  (forall a x, In x l -> P a -> P (f a x)) -> forall a, P a -> P (fold_left f l a).
Proof.
  induction l as [|x l IH]; intros Hf a Ha; simpl; [exact Ha|].
  apply IH.
  - intros a' x' Hin. apply Hf. right. exact Hin.
  - apply Hf; [left; reflexivity | exact Ha].
Qed.

Lemma constant_weights {B : Type} (k : Z) (l : list B) :
  fold_right (fun _ acc => k + acc) 0 l = k * Z.of_nat (length l).
Proof. induction l as [|x l IH]; simpl length; simpl fold_right; [lia | rewrite IH; lia]. Qed.

Lemma scaled_weights {B C : Type} (k : Z) (l : list (B * list C)) :
  fold_right (fun p acc => k * Z.of_nat (length (snd p)) + acc) 0 l
  = k * fold_right (fun p acc => Z.of_nat (length (snd p)) + acc) 0 l.
Proof. induction l as [|x l IH]; simpl fold_right; [lia | rewrite IH; lia]. Qed.

(** A quantity that one call of [check_single_feed] raises by [k] at
    most is raised by a run by [k] for every feed of the table at most. *)
Lemma run_growth (E : env) (mu : bot -> Z) (k : Z) :
  (forall feed_url category b, mu (check_single_feed E feed_url category 5 b) <= mu b + k) ->
  forall b, mu (run E b) <= mu (tick b) + k * feed_count.
Proof.
  intros Hstep b. unfold run, feed_count. rewrite <- scaled_weights.
  apply (fold_left_growth mu (fun p => k * Z.of_nat (length (snd p)))).
  intros b1 [category feed_urls]. simpl snd. rewrite <- constant_weights.
  apply (fold_left_growth mu (fun _ => k)).
  intros b2 feed_url. apply Hstep.
Qed.

(** X8.  The table has 12 feeds, so one run performs at most 60 posts,
    of which at most 24 are accepted, and puts at most 24 identifiers
    into the set of posted items. *)
Theorem run_volume (E : env) (b : bot) :
  feed_count = 12 /\
  attempts b <= attempts (run E b) <= attempts b + 60 /\
  deliveries b <= deliveries (run E b) <= deliveries b + 24 /\
  seen b <= seen (run E b) <= seen b + 24.
Proof.
  split; [reflexivity|].
  assert (Hup : forall mu k,
            (forall feed_url category b0,
               mu (check_single_feed E feed_url category 5 b0) <= mu b0 + k) ->
            mu (tick b) = mu b ->
            mu (run E b) <= mu b + k * 12).
  { intros mu k H Htick. rewrite <- Htick. apply (run_growth E mu k H b). }
  assert (Hatt : forall feed_url category b0,
            attempts b0 <= attempts (check_single_feed E feed_url category 5 b0)
            <= attempts b0 + 5).
  { intros feed_url category b0.
    destruct (check_single_feed_new_posts E category feed_url 5 b0)
      as (_ & new_posts & Hp & _ & Hlen & _).
    unfold attempts. rewrite Hp, length_app. specialize (Hlen ltac:(lia)). lia. }
  assert (Hdel : forall feed_url category b0,
            deliveries b0 <= deliveries (check_single_feed E feed_url category 5 b0)
            <= deliveries b0 + 2 /\
            seen b0 <= seen (check_single_feed E feed_url category 5 b0) <= seen b0 + 2).
  { intros feed_url category b0.
    destruct (check_single_feed_effect E category feed_url 5 b0)
      as (new_items & Hn & Hd & Hs & _). lia. }
  split; [|split].
  - split.
    + enough (- attempts (run E b) <= - attempts b + 0 * 12) by lia.
      apply (Hup (fun b0 => - attempts b0) 0); [|reflexivity].
      intros feed_url category b0. specialize (Hatt feed_url category b0). lia.
    + apply (Hup attempts 5); [|reflexivity]. intros. apply Hatt.
  - split.
    + enough (- deliveries (run E b) <= - deliveries b + 0 * 12) by lia.
      apply (Hup (fun b0 => - deliveries b0) 0); [|reflexivity].
      intros feed_url category b0. destruct (Hdel feed_url category b0). lia.
    + apply (Hup deliveries 2); [|reflexivity]. intros. apply Hdel.
  - split.
    + enough (- seen (run E b) <= - seen b + 0 * 12) by lia.
      apply (Hup (fun b0 => - seen b0) 0); [|reflexivity].
      intros feed_url category b0. destruct (Hdel feed_url category b0). lia.
    + apply (Hup seen 2); [|reflexivity]. intros. apply Hdel.
Qed.

Lemma routed_for_incl (w : gmap str str) (channels channels' : list str)
    (p : request * post_result) :
  incl channels channels' -> routed_for w channels p -> routed_for w channels' p.
Proof.
  intros Hincl [channel [Hin Hw]]. exists channel. split; [apply Hincl; exact Hin | exact Hw].
Qed.

(** X9.  A run leaves the webhooks as they are, never takes an
    identifier out of the posted items and never rewrites the record of
    posts: it only adds posts at its end, each to the webhook of one of
    the seven categories that have feeds.  "matlab" has a webhook
    variable but no feed, and no rule routes to it. *)
Theorem run_posts_for_feed_categories (E : env) (b : bot) :
  feed_categories
  = List.map py ["cryptography"; "mobile_security"; "web_security"; "digital_forensics";
                 "osint"; "writeups"; "ctf"]%string /\
  In (py "matlab") (List.map fst webhook_variables) /\
  ~ In (py "matlab") feed_categories /\
  webhooks (run E b) = webhooks b /\
  posted_items b ⊆ posted_items (run E b) /\
  exists new_posts,
    posts (run E b) = posts b ++ new_posts /\
    Forall (routed_for (webhooks b) feed_categories) new_posts.
Proof.
  split; [reflexivity|].
  split; [vm_compute; tauto|].
  split; [intros H; vm_compute in H; decompose [or] H; try contradiction; discriminate|].
  pose (P := fun b' : bot =>
               webhooks b' = webhooks b /\
               posted_items b ⊆ posted_items b' /\
               exists new_posts,
                 posts b' = posts b ++ new_posts /\
                 Forall (routed_for (webhooks b) feed_categories) new_posts).
  assert (HP : P (run E b)); [|exact HP].
  unfold run. apply (fold_left_preserves_in P).
  - intros b1 [category feed_urls] Hin H1.
    assert (Hincl : incl [py "writeups"; py "ctf"; category] feed_categories).
    { intros channel [<-|[<-|[<-|[]]]].
      - vm_compute; tauto.
      - vm_compute; tauto.
      - unfold feed_categories. apply in_map_iff.
        exists (category, feed_urls). split; [reflexivity | exact Hin]. }
    apply (fold_left_preserves P); [|exact H1].
    intros b2 feed_url H2. unfold P in H2 |- *.
    destruct H2 as (Hw2 & Hsub2 & new2 & Hp2 & Hall2).
    destruct (check_single_feed_new_posts E category feed_url 5 b2)
      as (Hw3 & new3 & Hp3 & Hall3 & _).
    destruct (check_single_feed_effect E category feed_url 5 b2)
      as (_ & _ & _ & _ & Hsub3).
    split; [congruence|]. split; [transitivity (posted_items b2); assumption|].
    exists (new2 ++ new3). split; [rewrite Hp3, Hp2, <- app_assoc; reflexivity|].
    apply Forall_app_2; [exact Hall2|].
    rewrite Hw2 in Hall3.
    eapply List.Forall_impl; [|exact Hall3].
    intros p. apply routed_for_incl. exact Hincl.
  - split; [reflexivity|]. split; [reflexivity|].
    exists []. rewrite app_nil_r. split; [reflexivity | constructor].
Qed.

(** ** Single entries *)

(** X10.  When the post for an entry is accepted (status 204), the
    identifier of the entry is added to the posted items, the counter
    goes up by one and the post is on record; the loop breaks exactly
    when the counter has reached 2, and then the rest of the feed is not
    looked at. *)
Theorem accepted_delivery_is_recorded
    (E : env) (base_category : str) (e : entry) (n : Z) (b : bot)
    (title link item_id webhook_url : str) :
  let summary := default [] (entry_summary e) in
  let channel := get_appropriate_channel base_category title summary in
  let b1 := snd (too_old E e b) in
  let r := make_request webhook_url
             (make_data (make_embed channel title summary link
                           (utcnow_isoformat E (clock b1)))) in
  let res := requests_post E (length (posts b)) r in
  entry_title e = Some title -> entry_link e = Some link ->
  generate_item_id title link = Some item_id ->
  item_id ∉ posted_items b ->
  fst (too_old E e b) = false ->
  webhooks b !! channel = Some webhook_url -> webhook_url <> [] ->
  delivered res = true ->
  let out := loop_body E base_category e n b in
  snd (fst out) = n + 1 /\
  posted_items (snd out) = {[item_id]} ∪ posted_items b /\
  posts (snd out) = posts b ++ [(r, res)] /\
  deliveries (snd out) = deliveries b + 1 /\
  seen (snd out) = seen b + 1 /\
  fst (fst out) = (if n + 1 >=? 2 then Break else Next) /\
  (forall entries, 1 <= n ->
     feed_loop E base_category (e :: entries) n b = (n + 1, snd out)).
Proof.
  cbv zeta. intros Ht Hl Hid Hnew Hold Hw Hne Hok.
  destruct (too_old_fields E e b) as (Hw1 & Hi1 & Hp1).
  cbn [feed_loop]. unfold loop_body. rewrite Ht, Hl, Hid.
  destruct (decide (item_id ∈ posted_items b)); [contradiction|].
  destruct (too_old E e b) as [old b1]. simpl in *. subst old.
  destruct (send_to_discord_cases E
              (get_appropriate_channel base_category title (default [] (entry_summary e)))
              title (default [] (entry_summary e)) link base_category b1)
    as [[Hnone _] | [webhook_url' [Hw' [_ Hsend]]]].
  - rewrite Hw1, Hw in Hnone. destruct webhook_url; [congruence | contradiction].
  - rewrite Hw1, Hw in Hw'. injection Hw' as <-.
    cbv zeta in Hsend. rewrite Hp1 in Hsend.
    set (r := make_request webhook_url _) in *.
    set (res := requests_post E (length (posts b)) r) in *.
    rewrite Hsend, Hok.
    assert (Hfacts :
      forall c : control,
        let out := (c, n + 1, add_posted item_id (record_post r res (tick b1))) in
        snd (fst out) = n + 1 /\
        posted_items (snd out) = {[item_id]} ∪ posted_items b /\
        posts (snd out) = posts b ++ [(r, res)] /\
        deliveries (snd out) = deliveries b + 1 /\
        seen (snd out) = seen b + 1).
    { intros c. cbv zeta. simpl.
      split; [reflexivity|]. split; [rewrite Hi1; reflexivity|].
      split; [rewrite Hp1; reflexivity|]. split.
      - change (deliveries (add_posted item_id (record_post r res (tick b1))))
          with (deliveries (record_post r res (tick b1))).
        rewrite deliveries_record_post, Hok. unfold deliveries. simpl.
        rewrite Hp1. reflexivity.
      - unfold seen. simpl. rewrite Hi1. apply size_add_fresh. exact Hnew. }
    destruct (Z.geb_spec (n + 1) 2) as [Hge|Hlt].
    + destruct (Hfacts Break) as (H1 & H2 & H3 & H4 & H5).
      repeat split; try assumption.
    + destruct (Hfacts Next) as (H1 & H2 & H3 & H4 & H5).
      repeat split; try assumption. intros entries Hn. lia.
Qed.

(** On the sample feed with every post accepted, from a counter of 1:
    the first entry is recorded and the loop stops at 2. *)
Lemma accepted_delivery_is_recorded_witness :
  snd (fst (loop_body (sample_env (fun _ => 204)) (py "cryptography")
              (sample_entry "CTF Writeup: Pwning the Box" "http://a/1" "" None) 1
              (init (sample_env (fun _ => 204))))) = 2 /\
  fst (fst (loop_body (sample_env (fun _ => 204)) (py "cryptography")
              (sample_entry "CTF Writeup: Pwning the Box" "http://a/1" "" None) 1
              (init (sample_env (fun _ => 204))))) = Break.
Proof.
  destruct (accepted_delivery_is_recorded (sample_env (fun _ => 204))
              (py "cryptography")
              (sample_entry "CTF Writeup: Pwning the Box" "http://a/1" "" None) 1
              (init (sample_env (fun _ => 204)))
              (py "CTF Writeup: Pwning the Box") (py "http://a/1")
              (py "a47a73f72251c91540b8a3f2be6c4077")
              (py "https://discord.test/WRITEUPS_WEBHOOK_URL"))
    as (Hn & _ & _ & _ & _ & Hc & _).
  - reflexivity.
  - reflexivity.
  - vm_compute. reflexivity.
  - apply not_elem_of_empty.
  - reflexivity.
  - vm_compute. reflexivity.
  - discriminate.
  - reflexivity.
  - split; [exact Hn | exact Hc].
Defined.

Lemma run_keeps_posted_items (E : env) (b : bot) :
  posted_items b ⊆ posted_items (run E b).
Proof.
  unfold run.
  apply (fold_left_preserves (fun b' => posted_items b ⊆ posted_items b')); [|reflexivity].
  intros b1 [category feed_urls] H1.
  apply (fold_left_preserves (fun b' => posted_items b ⊆ posted_items b')); [|exact H1].
  intros b2 feed_url H2.
  destruct (check_single_feed_effect E category feed_url 5 b2) as (_ & _ & _ & _ & Hsub).
  transitivity (posted_items b2); assumption.
Qed.

(** X11.  Once an entry has been delivered, an entry with the same title
    and link is passed over from then on, whatever its summary and its
    date and whatever the feed and the category it comes from: in every
    later state of the bot, that is in every state whose posted items
    include the ones after the delivery, nothing is posted for it and the
    bot and the counter stay as they are.  The states after further
    calls of [check_single_feed] and after a further run are such
    states. *)
Theorem delivered_entry_is_skipped_afterwards
    (E : env) (base_category : str) (e : entry) (n : Z) (b : bot)
    (c : control) (b' : bot) :
  loop_body E base_category e n b = (c, n + 1, b') ->
  (forall later E' category' e' m,
     posted_items b' ⊆ posted_items later ->
     entry_title e' = entry_title e -> entry_link e' = entry_link e ->
     loop_body E' category' e' m later = (Next, m, later)) /\
  (forall later E2 feed_url category2 max_items,
     posted_items b' ⊆ posted_items later ->
     posted_items b'
     ⊆ posted_items (check_single_feed E2 feed_url category2 max_items later)) /\
  (forall later E2,
     posted_items b' ⊆ posted_items later ->
     posted_items b' ⊆ posted_items (run E2 later)).
Proof.
  intros Hbody. split; [|split].
  - revert Hbody. unfold loop_body at 1.
    destruct (entry_title e) as [title|] eqn:Ht;
      [|intros H; injection H as _ H _; lia].
    destruct (entry_link e) as [link|] eqn:Hl;
      [|intros H; injection H as _ H _; lia].
    destruct (generate_item_id title link) as [item_id|] eqn:Hid;
      [|intros H; injection H as _ H _; lia].
    destruct (decide (item_id ∈ posted_items b));
      [intros H; injection H as _ H _; lia|].
    destruct (too_old E e b) as [old b1].
    destruct old; [intros H; injection H as _ H _; lia|].
    destruct (send_to_discord E _ title _ link base_category b1) as [success b2].
    destruct success.
    + intros H.
      assert (Hb' : b' = add_posted item_id b2).
      { destruct (n + 1 >=? 2); injection H as _ <-; reflexivity. }
      intros later E' category' e' m Hlater Ht' Hl'.
      unfold loop_body. rewrite Ht', Hl', Hid.
      destruct (decide (item_id ∈ posted_items later)) as [_|Hout]; [reflexivity|].
      exfalso. apply Hout, Hlater. rewrite Hb'. simpl.
      apply elem_of_union_l, elem_of_singleton. reflexivity.
    + intros H. destruct (n >=? 2); injection H as _ H _; lia.
  - intros later E2 feed_url category2 max_items Hlater.
    destruct (check_single_feed_effect E2 category2 feed_url max_items later)
      as (_ & _ & _ & _ & Hsub).
    transitivity (posted_items later); assumption.
  - intros later E2 Hlater.
    transitivity (posted_items later); [exact Hlater | apply run_keeps_posted_items].
Qed.

(** On the sample feed: the first entry is delivered from the
    cryptography feed; after one more pass over the sample feed for
    another category, an entry with its title and link is passed over. *)
Lemma delivered_entry_is_skipped_afterwards_witness :
  let b' := snd (loop_body (sample_env (fun _ => 204)) (py "cryptography")
                   (sample_entry "CTF Writeup: Pwning the Box" "http://a/1" "" None) 0
                   (init (sample_env (fun _ => 204)))) in
  let later := check_single_feed (sample_env (fun _ => 204)) (py "https://feed.test/rss")
                 (py "web_security") 5 b' in
  loop_body (sample_env (fun _ => 204)) (py "osint")
    (sample_entry "CTF Writeup: Pwning the Box" "http://a/1" "another summary"
       (Some (sample_time 2024 3 10 11 0 0))) 1 later
  = (Next, 1, later).
Proof.
  cbv zeta.
  destruct (delivered_entry_is_skipped_afterwards (sample_env (fun _ => 204))
              (py "cryptography")
              (sample_entry "CTF Writeup: Pwning the Box" "http://a/1" "" None) 0
              (init (sample_env (fun _ => 204))) Next
              (snd (loop_body (sample_env (fun _ => 204)) (py "cryptography")
                      (sample_entry "CTF Writeup: Pwning the Box" "http://a/1" "" None) 0
                      (init (sample_env (fun _ => 204))))))
    as (Hskip & Hfeed & _).
  - vm_compute. reflexivity.
  - apply Hskip.
    + apply Hfeed. reflexivity.
    + reflexivity.
    + reflexivity.
Defined.

Lemma encode_cp_none (c : N) :
  Utf8.encode_cp c = None <-> (0xD800 <= c <= 0xDFFF \/ 0x110000 <= c)%N.
Proof.
  unfold Utf8.encode_cp. cbv zeta.
  destruct (Z.ltb_spec (Z.of_N c) 0x80); [split; [discriminate | lia]|].
  destruct (Z.ltb_spec (Z.of_N c) 0x800); [split; [discriminate | lia]|].
  destruct (Z.ltb_spec (Z.of_N c) 0x10000).
  - destruct (Z.leb_spec 0xD800 (Z.of_N c)); destruct (Z.leb_spec (Z.of_N c) 0xDFFF);
      simpl; split; try discriminate; try lia; reflexivity.
  - destruct (Z.ltb_spec (Z.of_N c) 0x110000); split; try discriminate; try lia; reflexivity.
Qed.

(** X12.  An entry that cannot be identified (its title or its link is
    missing, or they hold a surrogate code point, which UTF-8 does not
    encode) ends the processing of its feed: the entries before it are
    processed, the entry itself and all entries after it are not, and
    nothing of what was posted and recorded before is undone. *)
Theorem unidentifiable_entry_ends_the_feed
    (E : env) (base_category : str) (bad : entry) :
  unidentifiable bad ->
  (forall n b, loop_body E base_category bad n b = (Raised, n, b)) /\
  (forall good rest n b,
     feed_loop E base_category (good ++ bad :: rest) n b
     = feed_loop E base_category good n b) /\
  (forall n b rest,
     feed_loop E base_category (bad :: rest) n b = (n, b)).
Proof.
  intros Hbad.
  assert (Hbody : forall n b, loop_body E base_category bad n b = (Raised, n, b)).
  { intros n b. unfold loop_body. unfold unidentifiable in Hbad.
    destruct (entry_title bad) as [title|]; [|reflexivity].
    destruct (entry_link bad) as [link|]; [|reflexivity].
    rewrite Hbad. reflexivity. }
  split; [exact Hbody|]. split.
  - intros good rest. induction good as [|e good IH]; intros n b; simpl.
    + rewrite Hbody. reflexivity.
    + destruct (loop_body E base_category e n b) as [[[] n1] b1];
        [apply IH | reflexivity | reflexivity].
  - intros n b rest. simpl. rewrite Hbody. reflexivity.
Qed.

(** An entry without a link after the first sample entry: the first is
    delivered, the rest of the feed is not reached. *)
Lemma unidentifiable_entry_ends_the_feed_witness :
  feed_loop (sample_env (fun _ => 204)) (py "cryptography")
    ([sample_entry "CTF Writeup: Pwning the Box" "http://a/1" "" None]
     ++ {| entry_title := Some (py "No link"); entry_link := None;
           entry_summary := None; entry_published_parsed := None |}
     :: sample_entries) 0 (init (sample_env (fun _ => 204)))
  = feed_loop (sample_env (fun _ => 204)) (py "cryptography")
      [sample_entry "CTF Writeup: Pwning the Box" "http://a/1" "" None]
      0 (init (sample_env (fun _ => 204))).
Proof.
  apply (unidentifiable_entry_ends_the_feed (sample_env (fun _ => 204))
           (py "cryptography")
           {| entry_title := Some (py "No link"); entry_link := None;
              entry_summary := None; entry_published_parsed := None |}).
  exact I.
Defined.

(** What makes an entry unidentifiable. *)
Lemma unidentifiable_cases (e : entry) :
  unidentifiable e <->
  entry_title e = None \/ entry_link e = None \/
  exists title link,
    entry_title e = Some title /\ entry_link e = Some link /\
    Exists (fun c => (0xD800 <= c <= 0xDFFF \/ 0x110000 <= c)%N) (title ++ link).
Proof.
  unfold unidentifiable.
  destruct (entry_title e) as [title|]; [|split; auto].
  destruct (entry_link e) as [link|]; [|split; auto].
  assert (Hnone : generate_item_id title link = None
                  <-> Exists (fun c => Utf8.encode_cp c = None) (title ++ link)).
  { unfold generate_item_id. rewrite <- utf8_encode_none.
    destruct (Utf8.encode (title ++ link)); split; intros H;
      try discriminate; reflexivity. }
  rewrite Hnone. split.
  - intros H. right. right. exists title, link. split; [reflexivity|].
    split; [reflexivity|].
    eapply List.Exists_impl; [|exact H]. intros c. apply encode_cp_none.
  - intros [H|[H|[t [l [Ht [Hl H]]]]]]; try discriminate.
    injection Ht as <-. injection Hl as <-.
    eapply List.Exists_impl; [|exact H]. intros c. apply encode_cp_none.
Qed.

(** X13.  The recency check is monotone in the clock: an entry that is
    too old at one reading of the clock is too old at every later
    reading, and an entry that passes at one reading passed at every
    earlier one. *)
Theorem too_old_is_monotone (E E' : env) (e : entry) (b b' : bot) :
  datetime_now E (clock b) <= datetime_now E' (clock b') ->
  (fst (too_old E e b) = true -> fst (too_old E' e b') = true) /\
  (fst (too_old E' e b') = false -> fst (too_old E e b) = false).
Proof.
  intros Hnow.
  assert (H : fst (too_old E e b) = true -> fst (too_old E' e b') = true).
  { unfold too_old.
    destruct (entry_published_parsed e) as [t|]; [|discriminate].
    destruct (datetime_of_struct t) as [pub_date|]; [|discriminate].
    unfold datetime_sub.
    destruct (Z.ltb_spec (datetime_now E (clock b) - timedelta_hours 48) 0);
      [discriminate|].
    destruct (Z.ltb_spec (datetime_now E' (clock b') - timedelta_hours 48) 0); [lia|].
    simpl. rewrite !Z.ltb_lt. lia. }
  split; [exact H|].
  intros Hpass. destruct (fst (too_old E e b)); [|reflexivity].
  rewrite H in Hpass; [discriminate | reflexivity].
Qed.

(** The entry published 48 hours and one second before noon is too old
    at noon and still too old a second later. *)
Lemma too_old_is_monotone_witness :
  fst (too_old (sample_env_at (sample_now + 1000000))
         (sample_entry "Old news" "http://a/2" "x" (Some (sample_time 2024 3 8 11 59 59)))
         (init (sample_env_at (sample_now + 1000000)))) = true.
Proof.
  apply (too_old_is_monotone (sample_env_at sample_now)
           (sample_env_at (sample_now + 1000000))
           (sample_entry "Old news" "http://a/2" "x"
              (Some (sample_time 2024 3 8 11 59 59)))
           (init (sample_env_at sample_now))
           (init (sample_env_at (sample_now + 1000000)))).
  - vm_compute. discriminate.
  - vm_compute. reflexivity.
Defined.

(** X14.  What is posted for an entry that is neither seen nor too old,
    when its channel has a webhook: one message to that webhook, with a
    timeout of 10 seconds, the fixed user name and a single embed whose
    link is the link of the entry, whose title is the first 256
    characters of its title and whose description is "No description
    available" when the entry has no summary or an empty one, and the
    first 2048 characters of the summary otherwise. *)
Theorem entry_post_contents
    (E : env) (base_category : str) (e : entry) (n : Z) (b : bot)
    (title link item_id webhook_url : str) :
  let channel :=
    get_appropriate_channel base_category title (default [] (entry_summary e)) in
  entry_title e = Some title -> entry_link e = Some link ->
  generate_item_id title link = Some item_id ->
  item_id ∉ posted_items b ->
  fst (too_old E e b) = false ->
  webhooks b !! channel = Some webhook_url -> webhook_url <> [] ->
  exists r res m,
    posts (snd (loop_body E base_category e n b)) = posts b ++ [(r, res)] /\
    request_url r = webhook_url /\ request_timeout r = 10 /\
    payload_username (request_json r) = bot_username /\
    payload_embeds (request_json r) = [m] /\
    embed_url m = link /\
    embed_title m = firstn 256 title /\
    (entry_summary e = None \/ entry_summary e = Some [] ->
     embed_description m = py "No description available") /\
    (forall summary, entry_summary e = Some summary -> summary <> [] ->
                     embed_description m = firstn 2048 summary) /\
    embed_timestamp m = utcnow_isoformat E (clock (snd (too_old E e b))).
Proof.
  cbv zeta. intros Ht Hl Hid Hnew Hold Hw Hne.
  destruct (too_old_fields E e b) as (Hw1 & Hi1 & Hp1).
  unfold loop_body. rewrite Ht, Hl, Hid.
  destruct (decide (item_id ∈ posted_items b)); [contradiction|].
  destruct (too_old E e b) as [old b1]. simpl in *. subst old.
  destruct (send_to_discord_cases E
              (get_appropriate_channel base_category title (default [] (entry_summary e)))
              title (default [] (entry_summary e)) link base_category b1)
    as [[Hnone _] | [webhook_url' [Hw' [_ Hsend]]]].
  - rewrite Hw1, Hw in Hnone. destruct webhook_url; [congruence | contradiction].
  - rewrite Hw1, Hw in Hw'. injection Hw' as <-.
    cbv zeta in Hsend. rewrite Hsend.
    eexists. eexists. eexists. split.
    + destruct (delivered _);
        [destruct (n + 1 >=? 2) | destruct (n >=? 2)]; simpl; rewrite Hp1; reflexivity.
    + simpl. repeat split.
      * intros [-> | ->]; reflexivity.
      * intros summary -> Hs. destruct summary; [congruence | reflexivity].
Qed.

(** The last sample entry, without a summary here, is posted with the
    placeholder as its description. *)
Lemma entry_post_contents_witness :
  exists r res m,
    posts (snd (loop_body (sample_env (fun _ => 204)) (py "osint")
                  {| entry_title := Some (py "One more"); entry_link := Some (py "http://a/5");
                     entry_summary := None; entry_published_parsed := None |}
                  0 (init (sample_env (fun _ => 204))))) = [(r, res)] /\
    request_url r = py "https://discord.test/OSINT_WEBHOOK_URL" /\
    payload_embeds (request_json r) = [m] /\
    embed_description m = py "No description available".
Proof.
  destruct (entry_post_contents (sample_env (fun _ => 204)) (py "osint")
              {| entry_title := Some (py "One more"); entry_link := Some (py "http://a/5");
                 entry_summary := None; entry_published_parsed := None |}
              0 (init (sample_env (fun _ => 204)))
              (py "One more") (py "http://a/5") (py "e65fe6a36d6e6f620a2f2a7d622a900f")
              (py "https://discord.test/OSINT_WEBHOOK_URL"))
    as (r & res & m & Hp & Hu & _ & _ & He & _ & _ & Hd & _).
  - reflexivity.
  - reflexivity.
  - vm_compute. reflexivity.
  - apply not_elem_of_empty.
  - reflexivity.
  - vm_compute. reflexivity.
  - discriminate.
  - exists r, res, m. split; [exact Hp|]. split; [exact Hu|]. split; [exact He|].
    apply Hd. left. reflexivity.
Defined.

(** X15.  A feed whose entries have all been posted already is passed
    through without any effect: nothing is posted, the clock is not
    read, and the bot and the counter are left exactly as they were. *)
Theorem feed_of_posted_entries_changes_nothing
    (E : env) (feed_url base_category : str) (max_items : Z) (b : bot)
    (entries : list entry) :
  feedparser_parse E feed_url = Some entries ->
  all_posted b entries ->
  check_single_feed E feed_url base_category max_items b = b /\
  (forall n, feed_loop E base_category entries n b = (n, b)).
Proof.
  intros Hparse Hall.
  assert (Hloop : forall l, all_posted b l ->
                  forall n, feed_loop E base_category l n b = (n, b)).
  { intros l Hl. induction Hl as [|e l (title & link & item_id & Ht & Hl' & Hid & Hin) _ IH];
      intros n; simpl; [reflexivity|].
    unfold loop_body. rewrite Ht, Hl', Hid.
    destruct (decide (item_id ∈ posted_items b)); [apply IH | contradiction]. }
  split; [|apply Hloop; exact Hall].
  unfold check_single_feed. rewrite Hparse.
  destruct entries as [|e entries]; [reflexivity|].
  rewrite Hloop; [reflexivity|].
  unfold all_posted, py_slice_to in *.
  destruct (max_items <? 0); apply Forall_take; exact Hall.
Qed.

(** A feed of one entry that has been posted before. *)
Lemma feed_of_posted_entries_changes_nothing_witness :
  check_single_feed sample_env_single (py "https://feed.test/rss") (py "cryptography") 5
    (add_posted (py "a47a73f72251c91540b8a3f2be6c4077") (init sample_env_single))
  = add_posted (py "a47a73f72251c91540b8a3f2be6c4077") (init sample_env_single).
Proof.
  apply (feed_of_posted_entries_changes_nothing sample_env_single
           (py "https://feed.test/rss") (py "cryptography") 5
           (add_posted (py "a47a73f72251c91540b8a3f2be6c4077") (init sample_env_single))
           [sample_entry "CTF Writeup: Pwning the Box" "http://a/1" "" None]).
  - reflexivity.
  - constructor; [|constructor].
    exists (py "CTF Writeup: Pwning the Box"), (py "http://a/1"),
           (py "a47a73f72251c91540b8a3f2be6c4077").
    split; [reflexivity|]. split; [reflexivity|]. split; [vm_compute; reflexivity|].
    apply elem_of_union_l, elem_of_singleton. reflexivity.
Defined.
